(** * tunic.py: a shallow embedding of the TUIC installer

    The development follows [tunic.py]: the Python built-ins the script
    relies on, a model of the host (files, sockets, processes, random
    sources) with a small state-and-exception monad over it, and then one
    module per Python class: the credential, the server configuration,
    the client relay view and its three exporters, the project singleton
    with its port probe, the certbot hooks, the service wrapper and the
    install workflow. The properties come last. *)

From Stdlib Require Import ZArith Lia Ascii String List Permutation.
From Stdlib.Strings Require Import Byte.
From stdpp Require Import base strings list gmap pretty.

Local Open Scope Z_scope.

(** ** Python values and built-ins used by the script *)

Module Py.

(** Characters that cannot be typed inside a literal. *)
Definition DQ : ascii := "034"%char.
Definition LF : ascii := "010"%char.
Definition chr (c : ascii) : string := String c EmptyString.
Definition dq : string := chr DQ.
Definition nl : string := chr LF.

(** A text between double quotes, and a block of text given line by
    line, each line ended by a newline: the way the templates of the
    script are written down here. *)
Definition quoted (s : string) : string := dq +:+ s +:+ dq.

Definition unlines (l : list string) : string :=
  fold_right (fun s acc => s +:+ nl +:+ acc) EmptyString l.

(** [str(n)] for an [int]. *)
Definition str_int (n : Z) : string := pretty n.

(** [str(b)] for a [bool]. *)
Definition str_bool (b : bool) : string := if b then "True" else "False".

(** Truthiness of [x or y]: an empty string, [None] and an empty list
    are falsy. *)
Definition or_str (x y : string) : string :=
  match x with EmptyString => y | _ => x end.

Definition or_opt_str (x : option string) (y : string) : string :=
  match x with Some (String c s) => String c s | _ => y end.

Definition or_list {A} (x : option (list A)) (y : list A) : option (list A) :=
  match x with Some (_ :: _) => x | _ => Some y end.

(** [sep.join(l)] *)
Fixpoint join (sep : string) (l : list string) : string :=
  match l with
  | [] => EmptyString
  | [s] => s
  | s :: l' => s +:+ sep +:+ join sep l'
  end.

(** [s.split(c)] for a one-character separator: always at least one
    piece. *)
Fixpoint split_go (c : ascii) (cur : string) (s : string) : list string :=
  match s with
  | EmptyString => [String.rev cur]
  | String a s' =>
      if Ascii.eqb a c then String.rev cur :: split_go c EmptyString s'
      else split_go c (String a cur) s'
  end.
Definition split (c : ascii) (s : string) : list string :=
  split_go c EmptyString s.

(** [s.strip()]: whitespace is removed at both ends. The whitespace is
    that of ASCII, so this is [str.strip] on ASCII text only. *)
Definition is_space (a : ascii) : bool :=
  let n := nat_of_ascii a in
  ((9 <=? n) && (n <=? 13) || (28 <=? n) && (n <=? 32))%nat.

Fixpoint lstrip (s : string) : string :=
  match s with
  | String a s' => if is_space a then lstrip s' else s
  | EmptyString => EmptyString
  end.
Definition strip (s : string) : string :=
  String.rev (lstrip (String.rev (lstrip s))).

(** [s.split()]: the pieces between runs of whitespace. *)
Fixpoint words_go (cur : option string) (s : string) : list string :=
  match s with
  | EmptyString =>
      match cur with Some w => [String.rev w] | None => [] end
  | String a s' =>
      if is_space a then
        match cur with
        | Some w => String.rev w :: words_go None s'
        | None => words_go None s'
        end
      else
        words_go (Some (String a (match cur with Some w => w | None => EmptyString end))) s'
  end.
Definition words (s : string) : list string := words_go None s.

(** [range(lo, hi)] *)
Definition range (lo hi : Z) : list Z := seqZ lo (hi - lo).

(** [s.startswith(pre)] *)
Fixpoint startswith (pre s : string) : bool :=
  match pre, s with
  | EmptyString, _ => true
  | String a pre', String b s' => Ascii.eqb a b && startswith pre' s'
  | String _ _, EmptyString => false
  end.

(** [sub in s] *)
Fixpoint contains (sub s : string) : bool :=
  startswith sub s ||
  match s with
  | EmptyString => false
  | String _ s' => contains sub s'
  end.

(** [s.replace(old, new)] for a non-empty [old]: the occurrences are
    taken from the left and do not overlap; [skip] counts the characters
    of an occurrence that are still to be passed over. *)
Fixpoint replace_go (old new : string) (skip : nat) (s : string) : string :=
  match s with
  | EmptyString => EmptyString
  | String c s' =>
      match skip with
      | S k => replace_go old new k s'
      | O =>
          if startswith old s
          then new +:+ replace_go old new (String.length old - 1) s'
          else String c (replace_go old new 0 s')
      end
  end.
Definition replace (old new s : string) : string := replace_go old new 0 s.

(** [s[:n]] for [0 <= n] *)
Definition take (n : nat) (s : string) : string := String.substring 0 n s.

(** [repr(s)] for a [str] of ASCII text: single quotes unless the text
    has a single quote and no double quote; the quote, the backslash and
    control characters are escaped. Bytes above 127 are kept, which is
    [repr] only when they encode printable text. *)
Definition hex_digit (n : nat) : ascii :=
  ascii_of_nat (if (n <? 10)%nat then 48 + n else 87 + n)%nat.

Definition repr_char (q a : ascii) : string :=
  let n := nat_of_ascii a in
  if Ascii.eqb a "\" then "\\"
  else if Ascii.eqb a q then String "\" (chr q)
  else if Ascii.eqb a LF then "\n"
  else if Ascii.eqb a "013" then "\r"
  else if Ascii.eqb a "009" then "\t"
  else if ((n <? 32) || (n =? 127))%nat
       then String "\" (String "x" (String (hex_digit (n / 16))
              (chr (hex_digit (n mod 16)))))
  else chr a.

Fixpoint repr_body (q : ascii) (s : string) : string :=
  match s with
  | EmptyString => EmptyString
  | String a s' => repr_char q a +:+ repr_body q s'
  end.

Definition repr_str (s : string) : string :=
  let q := if contains "'" s && negb (contains dq s) then DQ else "'"%char in
  chr q +:+ repr_body q s +:+ chr q.

(** [repr(l)] for a list of [str], and [str(x)] for [List[str] | None]. *)
Definition repr_list (l : list string) : string :=
  "[" +:+ join ", " (map repr_str l) +:+ "]".

Definition str_opt_list (x : option (list string)) : string :=
  match x with Some l => repr_list l | None => "None" end.

(** The values that occur in the [__dict__] of the data classes. *)
#[warnings="-register-all"] Inductive value :=
| VNone
| VBool (b : bool)
| VInt (n : Z)
| VStr (s : string)
| VList (l : list string)
| VDict (d : list (string * value)).

Definition of_opt_str (x : option string) : value :=
  match x with Some s => VStr s | None => VNone end.
Definition of_opt_list (x : option (list string)) : value :=
  match x with Some l => VList l | None => VNone end.
Definition of_opt_bool (x : option bool) : value :=
  match x with Some b => VBool b | None => VNone end.

Definition is_none (v : value) : bool :=
  match v with VNone => true | _ => false end.

(** A [dict] with string keys, in insertion order. *)
Definition dict := list (string * value).

Fixpoint get (d : dict) (k : string) : option value :=
  match d with
  | [] => None
  | (k', v) :: d' => if String.eqb k' k then Some v else get d' k
  end.

(** [d[k] = v]: an existing key keeps its place. *)
Fixpoint set_item {V} (d : list (string * V)) (k : string) (v : V)
    : list (string * V) :=
  match d with
  | [] => [(k, v)]
  | (k', v') :: d' =>
      if String.eqb k' k then (k, v) :: d' else (k', v') :: set_item d' k v
  end.

Definition of_str_dict (d : list (string * string)) : value :=
  VDict (map (fun kv => (fst kv, VStr (snd kv))) d).

(** [{k: d[k] for k in d if d[k] is not None}] *)
Definition drop_none (d : dict) : dict :=
  filter (fun kv => negb (is_none (snd kv))) d.

End Py.

(** ** The host: files, sockets, processes, randomness

    What the script reads from its surroundings is an [env] of oracles;
    what it changes is a [state]: the file system, the counters of the
    random sources, the attributes of the [Project] singleton, and the
    trace of the calls that leave the process. *)

Module Host.

Inductive proto := tcp | udp.

Inductive exn :=
| SystemExit          (* sys.exit() *)
| OverflowError       (* bind(): port must be 0-65535 *)
| OSError             (* a program that cannot be spawned *)
| URLError            (* urlopen failed *)
| ValueError          (* a document that does not parse, a failed unpacking *)
| KeyError            (* a missing key *)
| RecursionError      (* maximum recursion depth exceeded *)
| AttributeError      (* [.get] on a value that is no dict *)
| TypeError.          (* [data[key]] on a value that is no dict *)

Inductive event :=
| Log (level msg : string)            (* logging.info / warning / error *)
| Print (what : string)               (* print *)
| Input                               (* input(prompt) *)
| Probe (p : proto) (port : Z)        (* socket(); bind(("0.0.0.0", port)) *)
| Getaddrinfo (domain : string)       (* socket.getaddrinfo *)
| Urlopen (url : string)              (* urllib.request.urlopen *)
| Urandom (n : nat)                   (* os.urandom(n) *)
| System (cmd : string)               (* os.system *)
| Popen (argv : list string)          (* subprocess.Popen, subprocess.run *)
| Urlretrieve (url dest : string)     (* urllib.request.urlretrieve *)
| WriteText (path : string)           (* Path.write_text, open(.., "a").write *)
| Makedirs (path : string)            (* os.makedirs *)
| Rmtree (path : string)              (* shutil.rmtree *)
| Sleep                               (* time.sleep *)
| Execl (argv : list string).         (* os.execl *)

(** What a file holds: text, a JSON document (kept as the value that
    was dumped), or bytes the script never looks into. *)
Inductive file :=
| Text (s : string)
| Json (v : Py.value)
| Blob.

(** The answer of [certbot certonly]: the program cannot be started, or
    it ends having written [stderr] and, when [issued], the bundle. *)
Inductive certonly :=
| SpawnFailed
| Exited (stderr : string) (issued : bool).

Record env := {
  bindable : proto -> Z -> bool;        (* would the bind succeed *)
  resolve : string -> option string;    (* getaddrinfo; None: gaierror *)
  public_ip : option string;            (* body of http://ifconfig.me/ip *)
  stdin : string;                       (* the line typed at the prompt *)
  certbot : string -> certonly;         (* by domain *)
  randbelow : nat -> nat -> nat;        (* k-th draw of random, for a bound *)
  entropy : nat -> byte;                (* the byte stream of os.urandom *)
  fetch_ok : nat -> bool;               (* does the k-th download succeed *)
  is_active : string                    (* stdout of systemctl is-active *)
}.

Record state := {
  trace : list event;
  files : gmap string file;
  dirs : gset string;
  rand_calls : nat;
  entropy_pos : nat;
  fetch_calls : nat;
  _server_ip : string;                  (* Project._server_ip *)
  _server_port : Z                      (* Project._server_port *)
}.

(** A process starts with the class attributes of [Project]. *)
Definition boot (tr : list event) (fs : gmap string file) (ds : gset string)
    (r e f : nat) : state :=
  {| trace := tr; files := fs; dirs := ds; rand_calls := r; entropy_pos := e;
     fetch_calls := f; _server_ip := EmptyString; _server_port := -1 |}.

Definition restart (st : state) : state :=
  boot (trace st) (files st) (dirs st) (rand_calls st) (entropy_pos st)
       (fetch_calls st).

Definition with_trace (f : list event -> list event) (st : state) : state :=
  {| trace := f (trace st); files := files st; dirs := dirs st;
     rand_calls := rand_calls st; entropy_pos := entropy_pos st;
     fetch_calls := fetch_calls st;
     _server_ip := _server_ip st; _server_port := _server_port st |}.

Definition with_fs (f : gmap string file -> gmap string file)
    (g : gset string -> gset string) (st : state) : state :=
  {| trace := trace st; files := f (files st); dirs := g (dirs st);
     rand_calls := rand_calls st; entropy_pos := entropy_pos st;
     fetch_calls := fetch_calls st;
     _server_ip := _server_ip st; _server_port := _server_port st |}.

Definition with_counters (r e f : nat -> nat) (st : state) : state :=
  {| trace := trace st; files := files st; dirs := dirs st;
     rand_calls := r (rand_calls st); entropy_pos := e (entropy_pos st);
     fetch_calls := f (fetch_calls st);
     _server_ip := _server_ip st; _server_port := _server_port st |}.

Definition with_project (ip : string -> string) (port : Z -> Z) (st : state)
    : state :=
  {| trace := trace st; files := files st; dirs := dirs st;
     rand_calls := rand_calls st; entropy_pos := entropy_pos st;
     fetch_calls := fetch_calls st;
     _server_ip := ip (_server_ip st); _server_port := port (_server_port st) |}.

(** *** The monad: an environment, a state, and a result that is a
    value, an exception on its way up, or the end of the process image. *)

Inductive outcome (A : Type) :=
| Ret (a : A)
| Raise (e : exn)
| Replaced.
Arguments Ret {A} a.
Arguments Raise {A} e.
Arguments Replaced {A}.

Definition M (A : Type) : Type := env -> state -> outcome A * state.

Definition ret {A} (a : A) : M A := fun _ st => (Ret a, st).

Definition bind {A B} (m : M A) (k : A -> M B) : M B :=
  fun ev st =>
    match m ev st with
    | (Ret a, st') => k a ev st'
    | (Raise e, st') => (Raise e, st')
    | (Replaced, st') => (Replaced, st')
    end.

(** A branch or a loop that has nothing left to do. *)
Definition pass : M unit := ret tt.

Definition raise {A} (e : exn) : M A := fun _ st => (Raise e, st).
Definition replaced {A} : M A := fun _ st => (Replaced, st).
Definition ask : M env := fun ev st => (Ret ev, st).
Definition get : M state := fun _ st => (Ret st, st).
Definition modify (f : state -> state) : M unit := fun _ st => (Ret tt, f st).

Definition emit (e : event) : M unit :=
  modify (with_trace (fun tr => tr ++ [e])).

(** [logging]: the level and the text; of the Chinese messages of the
    script the [key=value] part is kept, or an English gloss. *)
Definition info (msg : string) : M unit := emit (Log "INFO" msg).
Definition warning (msg : string) : M unit := emit (Log "WARNING" msg).
Definition error (msg : string) : M unit := emit (Log "ERROR" msg).

(** [sys.exit()] *)
Definition sys_exit {A} : M A := raise SystemExit.

(** [os.system(cmd)]: the status is never looked at. *)
Definition system (cmd : string) : M unit := emit (System cmd).

(** [os.urandom(n)]: the next [n] bytes of the stream. *)
Definition urandom (n : nat) : M (list byte) :=
  fun ev st =>
    (Ret (map (entropy ev) (seq (entropy_pos st) n)),
     with_counters id (fun e => (e + n)%nat) id
       (with_trace (fun tr => tr ++ [Urandom n]) st)).

(** One draw of [random]'s generator below a positive bound. *)
Definition draw (bound : nat) : M nat :=
  fun ev st =>
    (Ret (randbelow ev (rand_calls st) bound mod bound)%nat,
     with_counters S id id st).

End Host.

Import Host.

Global Instance M_ret : MRet M := @Host.ret.
Global Instance M_bind : MBind M := fun A B k m => Host.bind m k.

(** *** Paths *)

Module Path.

Definition joinpath (p name : string) : string := p +:+ "/" +:+ name.

(** [Path.exists]: a file or a directory is there. *)
Definition exists_ (p : string) : M bool :=
  st ← get;
  mret (bool_decide (is_Some (files st !! p)) || bool_decide (p ∈ dirs st)).

Definition is_dir (p : string) : M bool :=
  st ← get; mret (bool_decide (p ∈ dirs st)).

(** The name of [path] inside [dir], when [path] is directly in it. *)
Definition child (dir path : string) : option string :=
  let pre := dir +:+ "/" in
  if Py.startswith pre path then
    let name := String.substring (String.length pre)
                  (String.length path - String.length pre) path in
    if Py.contains "/" name || String.eqb name EmptyString then None
    else Some name
  else None.

(** [os.listdir] *)
Definition listdir (dir : string) : M (list string) :=
  st ← get;
  mret (omap (child dir) (elements (dirs st) ++ (map_to_list (files st)).*1)).

Definition inside (dir path : string) : bool :=
  String.eqb dir path || Py.startswith (dir +:+ "/") path.

(** [shutil.rmtree(p, ignore_errors=True)] *)
Definition rmtree (p : string) : M unit :=
  emit (Rmtree p);;
  modify (with_fs (filter (fun kv => negb (inside p kv.1)))
                  (filter (fun d => negb (inside p d)))).

(** [shutil.rmtree(p)]: a directory that is not there is an error. *)
Definition rmtree_strict (p : string) : M unit :=
  st ← get;
  if bool_decide (p ∈ dirs st) then rmtree p else emit (Rmtree p);; raise OSError.

(** [os.remove(p)]: the file goes; a directory, or nothing, at [p] is an
    error. The call is recorded as the removal of what is at [p]. *)
Definition remove (p : string) : M unit :=
  st ← get;
  emit (Rmtree p);;
  if bool_decide (is_Some (files st !! p))
  then modify (with_fs (delete p) id)
  else raise OSError.

(** [os.makedirs(p, exist_ok=True)] *)
Definition makedirs (p : string) : M unit :=
  emit (Makedirs p);;
  modify (with_fs id (fun ds => {[p]} ∪ ds)).

(** [Path.write_text] and the [json.dumps] writers *)
Definition write (p : string) (f : file) : M unit :=
  emit (WriteText p);;
  modify (with_fs <[p := f]> id).

(** [Path.read_text] of a text file; anything else reads as empty. *)
Definition read_text (p : string) : M string :=
  st ← get;
  mret (match files st !! p with Some (Text s) => s | _ => EmptyString end).

End Path.

(** ** Credentials *)

Module Hex.

(** [binascii.hexlify]: two lowercase digits per byte. *)
Definition hi (b : byte) : ascii :=
  Py.hex_digit (N.to_nat (Byte.to_N b) / 16).
Definition lo (b : byte) : ascii :=
  Py.hex_digit (N.to_nat (Byte.to_N b) mod 16).
Definition of_byte (b : byte) : list ascii := [hi b; lo b].

Definition hexlify (bs : list byte) : list ascii := flat_map of_byte bs.

Definition is_hex (a : ascii) : bool :=
  let n := nat_of_ascii a in
  ((48 <=? n) && (n <=? 57) || (97 <=? n) && (n <=? 102))%nat.

End Hex.

Module UUID.

(** [uuid.uuid4()]: sixteen random bytes with the version nibble set to
    4 and the variant bits set to RFC 4122. *)
Definition set_version (b : byte) : byte :=
  match Byte.of_N (N.lor (N.land (Byte.to_N b) 15) 64) with
  | Some b' => b'
  | None => b
  end.

Definition set_variant (b : byte) : byte :=
  match Byte.of_N (N.lor (N.land (Byte.to_N b) 63) 128) with
  | Some b' => b'
  | None => b
  end.

Definition stamp (bs : list byte) : list byte :=
  alter set_variant 8%nat (alter set_version 6%nat bs).

(** [str(uuid)]: 8-4-4-4-12 hexadecimal digits. *)
Definition to_str (bs : list byte) : string :=
  let h := Hex.hexlify bs in
  string_of_list_ascii
    (firstn 8 h ++ "-"%char :: firstn 4 (skipn 8 h) ++
     "-"%char :: firstn 4 (skipn 12 h) ++
     "-"%char :: firstn 4 (skipn 16 h) ++
     "-"%char :: skipn 20 h).

Definition uuid4 (random : list byte) : string := to_str (stamp random).

(** The shape of a version-4 UUID in text form. *)
Definition dash_at (i : nat) : bool :=
  ((i =? 8) || (i =? 13) || (i =? 18) || (i =? 23))%nat.

Definition shaped (s : string) : bool :=
  let cs := list_ascii_of_string s in
  (length cs =? 36)%nat &&
  forallb (fun ic => if dash_at (fst ic) then Ascii.eqb (snd ic) "-"
                     else Hex.is_hex (snd ic))
          (combine (seq 0 36) cs) &&
  match nth_error cs 14 with Some c => Ascii.eqb c "4" | None => false end &&
  match nth_error cs 19 with
  | Some c => existsb (Ascii.eqb c) ["8"; "9"; "a"; "b"]%char
  | None => false
  end.

End UUID.

Module User.

Record t := { username : string; password : string }.

(** [User.gen]: [uuid4()] draws 16 bytes, [secrets.token_hex()] draws
    32 bytes and renders 64 digits, of which the first 16 are kept. *)
Definition of_random (r16 r32 : list byte) : t :=
  {| username := UUID.uuid4 r16;
     password := Py.take 16 (string_of_list_ascii (Hex.hexlify r32)) |}.

Definition gen : M t :=
  r16 ← urandom 16;
  r32 ← urandom 32;
  mret (of_random r16 r32).

(** Sixteen hexadecimal digits. *)
Definition password_ok (s : string) : bool :=
  (String.length s =? 16)%nat && forallb Hex.is_hex (list_ascii_of_string s).

End User.

(** ** The server runtime configuration *)

Module ServerConfig.

Record t := {
  server : string;
  users : list (string * string);
  certificate : string;
  private_key : string;
  congestion_control : string;
  alpn : option (list string);
  udp_relay_ipv6 : bool;
  zero_rtt_handshake : bool;
  dual_stack : option bool;
  auth_timeout : string;
  task_negotiation_timeout : string;
  max_idle_time : string;
  max_external_packet_size : Z;
  send_window : Z;
  receive_window : Z;
  gc_interval : string;
  gc_lifetime : string;
  log_level : string
}.

Definition default_server : string := "[::]:443".
Definition default_alpn : list string := ["h3"; "spdy/3.1"].

(** [__post_init__] *)
Definition post_init (self : t) : t :=
  {| server := Py.or_str (server self) default_server;
     users := users self;
     certificate := certificate self;
     private_key := private_key self;
     congestion_control := congestion_control self;
     alpn := Py.or_list (alpn self) default_alpn;
     udp_relay_ipv6 := udp_relay_ipv6 self;
     zero_rtt_handshake := zero_rtt_handshake self;
     dual_stack := dual_stack self;
     auth_timeout := auth_timeout self;
     task_negotiation_timeout := task_negotiation_timeout self;
     max_idle_time := max_idle_time self;
     max_external_packet_size := max_external_packet_size self;
     send_window := send_window self;
     receive_window := receive_window self;
     gc_interval := gc_interval self;
     gc_lifetime := gc_lifetime self;
     log_level := log_level self |}.

(** The generated [__init__]: the arguments are stored, then
    [__post_init__] runs. [init] takes every field; [init4] is the call
    with the four mandatory arguments and the declared defaults. *)
Definition init (args : t) : t := post_init args.

Definition init4 (server : string) (users : list (string * string))
    (certificate private_key : string) : t :=
  init {| server := server;
          users := users;
          certificate := certificate;
          private_key := private_key;
          congestion_control := "bbr";
          alpn := Some [];
          udp_relay_ipv6 := true;
          zero_rtt_handshake := true;
          dual_stack := None;
          auth_timeout := "3s";
          task_negotiation_timeout := "3s";
          max_idle_time := "10s";
          max_external_packet_size := 1500;
          send_window := 16777216;
          receive_window := 8388608;
          gc_interval := "3s";
          gc_lifetime := "15s";
          log_level := "warn" |}.

(** The [users] argument of [from_automation] is one user or a list. *)
Inductive users_arg :=
| One (u : User.t)
| Many (l : list User.t).

Definition as_list (a : users_arg) : list User.t :=
  match a with One u => [u] | Many l => l end.

(** [{user.username: user.password for user in users}]: a later user
    overrides an earlier one of the same name. *)
Definition users_dict (l : list User.t) : list (string * string) :=
  fold_left (fun d u => Py.set_item d (User.username u) (User.password u)) l [].

Definition from_automation (users : users_arg)
    (path_fullchain path_privkey : string) (server_port : Z) : t :=
  let users := users_dict (as_list users) in
  let server := "[::]:" +:+ Py.str_int server_port in
  init4 server users path_fullchain path_privkey.

(** [self.__dict__], in field order. *)
Definition to_dict (self : t) : Py.dict :=
  [ ("server", Py.VStr (server self));
    ("users", Py.of_str_dict (users self));
    ("certificate", Py.VStr (certificate self));
    ("private_key", Py.VStr (private_key self));
    ("congestion_control", Py.VStr (congestion_control self));
    ("alpn", Py.of_opt_list (alpn self));
    ("udp_relay_ipv6", Py.VBool (udp_relay_ipv6 self));
    ("zero_rtt_handshake", Py.VBool (zero_rtt_handshake self));
    ("dual_stack", Py.of_opt_bool (dual_stack self));
    ("auth_timeout", Py.VStr (auth_timeout self));
    ("task_negotiation_timeout", Py.VStr (task_negotiation_timeout self));
    ("max_idle_time", Py.VStr (max_idle_time self));
    ("max_external_packet_size", Py.VInt (max_external_packet_size self));
    ("send_window", Py.VInt (send_window self));
    ("receive_window", Py.VInt (receive_window self));
    ("gc_interval", Py.VStr (gc_interval self));
    ("gc_lifetime", Py.VStr (gc_lifetime self));
    ("log_level", Py.VStr (log_level self)) ].

Definition to_json (self : t) (sp : string) : M unit :=
  Path.write sp (Json (Py.VDict (to_dict self)));;
  info ("save_path=" +:+ sp).

End ServerConfig.

(** ** The client relay view *)

Module ClientRelay.

Record t := {
  server : string;
  uuid : string;
  password : string;
  ip : option string;
  certificates : option (list string);
  udp_relay_mode : string;
  congestion_control : string;
  alpn : option (list string);
  zero_rtt_handshake : bool;
  send_window : Z;
  receive_window : Z;
  gc_interval : string;
  gc_lifetime : string
}.

Definition default_alpn : list string := ["h3"; "spdy/3.1"].

(** [__post_init__] *)
Definition post_init (self : t) : t :=
  {| server := server self;
     uuid := uuid self;
     password := password self;
     ip := ip self;
     certificates := None;
     udp_relay_mode := udp_relay_mode self;
     congestion_control := congestion_control self;
     alpn := Py.or_list (alpn self) default_alpn;
     zero_rtt_handshake := zero_rtt_handshake self;
     send_window := send_window self;
     receive_window := receive_window self;
     gc_interval := gc_interval self;
     gc_lifetime := gc_lifetime self |}.

Definition init (args : t) : t := post_init args.

(** [copy_from_server]: nine keyword arguments are passed; [ip],
    [certificates], [udp_relay_mode] and [zero_rtt_handshake] take the
    defaults of the class. *)
Definition copy_from_server (domain : string) (user : User.t)
    (sc : ServerConfig.t) (server_port : Z) : t :=
  let server := domain +:+ ":" +:+ Py.str_int server_port in
  init {| server := server;
          uuid := User.username user;
          password := User.password user;
          ip := None;
          certificates := Some [];
          udp_relay_mode := "quic";
          congestion_control := ServerConfig.congestion_control sc;
          alpn := ServerConfig.alpn sc;
          zero_rtt_handshake := true;
          send_window := ServerConfig.send_window sc;
          receive_window := ServerConfig.receive_window sc;
          gc_interval := ServerConfig.gc_interval sc;
          gc_lifetime := ServerConfig.gc_lifetime sc |}.

(** Attribute assignment on the instance. *)
Definition set_server (v : string) (self : t) : t :=
  {| server := v;
     uuid := uuid self;
     password := password self;
     ip := ip self;
     certificates := certificates self;
     udp_relay_mode := udp_relay_mode self;
     congestion_control := congestion_control self;
     alpn := alpn self;
     zero_rtt_handshake := zero_rtt_handshake self;
     send_window := send_window self;
     receive_window := receive_window self;
     gc_interval := gc_interval self;
     gc_lifetime := gc_lifetime self |}.

Definition set_ip (v : option string) (self : t) : t :=
  {| server := server self;
     uuid := uuid self;
     password := password self;
     ip := v;
     certificates := certificates self;
     udp_relay_mode := udp_relay_mode self;
     congestion_control := congestion_control self;
     alpn := alpn self;
     zero_rtt_handshake := zero_rtt_handshake self;
     send_window := send_window self;
     receive_window := receive_window self;
     gc_interval := gc_interval self;
     gc_lifetime := gc_lifetime self |}.

(** [self.__dict__], in field order. *)
Definition to_dict (self : t) : Py.dict :=
  [ ("server", Py.VStr (server self));
    ("uuid", Py.VStr (uuid self));
    ("password", Py.VStr (password self));
    ("ip", Py.of_opt_str (ip self));
    ("certificates", Py.of_opt_list (certificates self));
    ("udp_relay_mode", Py.VStr (udp_relay_mode self));
    ("congestion_control", Py.VStr (congestion_control self));
    ("alpn", Py.of_opt_list (alpn self));
    ("zero_rtt_handshake", Py.VBool (zero_rtt_handshake self));
    ("send_window", Py.VInt (send_window self));
    ("receive_window", Py.VInt (receive_window self));
    ("gc_interval", Py.VStr (gc_interval self));
    ("gc_lifetime", Py.VStr (gc_lifetime self)) ].

End ClientRelay.

Module ClientLocal.

Record t := {
  server : string;
  username : option string;
  password : option string;
  dual_stack : option bool;
  max_packet_size : option Z
}.

Definition init1 (server : string) : t :=
  {| server := server;
     username := None;
     password := None;
     dual_stack := None;
     max_packet_size := Some 1500 |}.

Definition to_dict (self : t) : Py.dict :=
  [ ("server", Py.VStr (server self));
    ("username", Py.of_opt_str (username self));
    ("password", Py.of_opt_str (password self));
    ("dual_stack", Py.of_opt_bool (dual_stack self));
    ("max_packet_size",
      match max_packet_size self with
      | Some n => Py.VInt n
      | None => Py.VNone
      end) ].

End ClientLocal.

(** ** The three exporters *)

Module NekoRayConfig.

Record t := {
  relay : Py.dict;
  local : Py.dict;
  log_level : string
}.

(** [from_server] assigns [relay.server] and, when an address is given,
    [relay.ip] on the instance it receives before reading its
    [__dict__]; the second component is that instance after the call. *)
Definition from_server (relay : ClientRelay.t) (server_addr : string)
    (server_port : Z) (server_ip : option string) : t * ClientRelay.t :=
  let local := ClientLocal.init1 "127.0.0.1:%socks_port%" in
  let relay :=
    ClientRelay.set_server (server_addr +:+ ":" +:+ Py.str_int server_port) relay in
  let relay :=
    match server_ip with
    | Some a => ClientRelay.set_ip (Some a) relay
    | None => relay
    end in
  ({| relay := Py.drop_none (ClientRelay.to_dict relay);
      local := Py.drop_none (ClientLocal.to_dict local);
      log_level := "warn" |},
   relay).

Definition to_dict (self : t) : Py.dict :=
  [ ("relay", Py.VDict (relay self));
    ("local", Py.VDict (local self));
    ("log_level", Py.VStr (log_level self)) ].

Definition to_json (self : t) (sp : string) : M unit :=
  Path.write sp (Json (Py.VDict (to_dict self))).

(** [from_json] goes through [from_dict_to_cls]: every field of the
    class has a default, so a missing key is not an error and the value
    is read with [data.get], which a JSON document that is no object
    does not have. A file that is not there cannot be read, and one
    that holds no JSON does not parse. A document without the two
    objects, which [to_json] never writes, is read as having them
    empty. *)
Definition from_json (sp : string) : M t :=
  st ← get;
  match files st !! sp with
  | Some (Json (Py.VDict data)) =>
      mret {| relay := match Py.get data "relay" with
                       | Some (Py.VDict d) => d
                       | _ => []
                       end;
              local := match Py.get data "local" with
                       | Some (Py.VDict d) => d
                       | _ => []
                       end;
              log_level := match Py.get data "log_level" with
                           | Some (Py.VStr l) => l
                           | _ => "warn"
                           end |}
  | Some (Json _) => raise AttributeError
  | Some _ => raise ValueError
  | None => raise OSError
  end.

(** [serv_peer]: [relay.get("server", "").split(":")] unpacked into two
    names. *)
Definition serv_peer (self : t) : M (string * string) :=
  let server := match Py.get (relay self) "server" with
                | Some (Py.VStr s) => s
                | _ => EmptyString
                end in
  match Py.split ":" server with
  | [serv_addr; serv_port] => mret (serv_addr, serv_port)
  | _ => raise ValueError
  end.

End NekoRayConfig.

Module ClashMetaConfig.

Record t := { contents : string }.

Definition TEMPLATE_META_LINES : list string :=
    [ "dns:";
      "  enable: true";
      "  prefer-h3: true";
      "  enhanced-mode: fake-ip";
      "  nameserver:";
      "    - " +:+ Py.quoted "https://dns.google/dns-query#PROXY";
      "    - " +:+ Py.quoted "https://security.cloudflare-dns.com/dns-query#PROXY";
      "    - " +:+ Py.quoted "quic://dns.adguard-dns.com";
      "  proxy-server-nameserver:";
      "    - " +:+ Py.quoted "https://223.5.5.5/dns-query";
      "  nameserver-policy:";
      "    " +:+ Py.quoted "geosite:cn" +:+ ":";
      "      - " +:+ Py.quoted "https://223.5.5.5/dns-query#h3=true";
      "rules:";
      "  - GEOSITE,category-scholar-!cn,PROXY";
      "  - GEOSITE,category-ads-all,REJECT";
      "  - GEOSITE,youtube,PROXY";
      "  - GEOSITE,google,PROXY";
      "  - GEOSITE,cn,DIRECT";
      "  - GEOSITE,private,DIRECT";
      "  # - GEOSITE,tracker,DIRECT";
      "  - GEOSITE,steam@cn,DIRECT";
      "  - GEOSITE,category-games@cn,DIRECT";
      "  - GEOSITE,geolocation-!cn,PROXY";
      "  - GEOIP,private,DIRECT,no-resolve";
      "  - GEOIP,telegram,PROXY";
      "  - GEOIP,CN,DIRECT";
      "  - DST-PORT,80/8080/443/8443,PROXY";
      "  - MATCH,DIRECT" ].

Definition TEMPLATE_META_CONFIG : string :=
  Py.nl +:+ Py.unlines TEMPLATE_META_LINES.

(** [TEMPLATE_META_PROXY_ADDONS.format(proxy=.., proxy_group=..)] *)
Definition TEMPLATE_META_PROXY_ADDONS (proxy proxy_group : string) : string :=
  Py.nl +:+ Py.unlines
    [ "proxies:";
      "  - " +:+ proxy;
      "proxy-groups:";
      "  - " +:+ proxy_group ].

Definition from_string_to_yaml (s : string) : string :=
  let _suffix := ", " in
  let fs :=
    Py.join _suffix
      (map Py.strip
         (filter (fun i => negb (String.eqb i EmptyString)) (Py.split Py.LF s))) in
  let fs := Py.take (String.length fs - String.length _suffix) fs in
  "{ " +:+ fs +:+ " }".

Definition remove_empty_lines (s : string) : string :=
  let lines := Py.split Py.LF s in
  let non_empty_lines :=
    filter (fun line => negb (String.eqb (Py.strip line) EmptyString)) lines in
  Py.join Py.nl non_empty_lines.

(** A triple-Py.quoted f-string whose lines are [key: value] entries
    indented by eight spaces: a newline, the lines, and the indentation
    before the closing quotes. *)
Definition indent : string := "        ".

Definition block (items : list (string * string)) : string :=
  Py.nl +:+
  Py.unlines (map (fun kv => indent +:+ fst kv +:+ ": " +:+ snd kv) items) +:+
  indent.

Definition name : string := "tunic".

(** The entries of the [proxy] f-string of [from_server]. *)
Definition proxy_items (relay : ClientRelay.t) (server_addr : string)
    (server_port : Z) (server_ip : option string) : list (string * string) :=
  [ ("name", Py.quoted name);
    ("type", "tuic");
    ("server", server_addr);
    ("port", Py.str_int server_port);
    ("uuid", ClientRelay.uuid relay);
    ("password", Py.quoted (ClientRelay.password relay));
    ("ip", Py.or_opt_str server_ip EmptyString);
    ("udp-relay-mode", ClientRelay.udp_relay_mode relay);
    ("congestion-controller", ClientRelay.congestion_control relay);
    ("alpn", Py.str_opt_list (ClientRelay.alpn relay));
    ("reduce-rtt", Py.str_bool (ClientRelay.zero_rtt_handshake relay));
    ("max-udp-relay-packet-size", "1464") ].

Definition proxy_group_items : list (string * string) :=
  [ ("name", "PROXY");
    ("type", "select");
    ("proxies", "[" +:+ Py.quoted name +:+ "]") ].

(** The value an entry list gives to a key. *)
Fixpoint item (items : list (string * string)) (k : string) : option string :=
  match items with
  | [] => None
  | (k', v) :: items' => if String.eqb k' k then Some v else item items' k
  end.

Definition from_server (relay : ClientRelay.t) (server_addr : string)
    (server_port : Z) (server_ip : option string) : t :=
  let proxy := block (proxy_items relay server_addr server_port server_ip) in
  let proxy_group := block proxy_group_items in
  let proxy := from_string_to_yaml proxy in
  let proxy_group := from_string_to_yaml proxy_group in
  let addons := TEMPLATE_META_PROXY_ADDONS proxy proxy_group in
  let contents := TEMPLATE_META_CONFIG +:+ addons in
  let contents := remove_empty_lines contents in
  {| contents := contents |}.

Definition to_yaml (self : t) (sp : string) : M unit :=
  Path.write sp (Text (contents self +:+ Py.nl)).

End ClashMetaConfig.

Module SingBoxConfig.

Record t := {
  type : string;
  tag : string;
  server : string;
  server_port : Z;
  uuid : string;
  password : string;
  congestion_control : string;
  udp_relay_mode : string;
  zero_rtt_handshake : bool;
  tls : Py.dict
}.

Definition from_server (relay : ClientRelay.t) (server_addr : string)
    (server_port : Z) (server_ip : option string) : t :=
  {| type := "tuic";
     tag := "tuic-out";
     server := Py.or_opt_str server_ip EmptyString;
     server_port := server_port;
     uuid := ClientRelay.uuid relay;
     password := ClientRelay.password relay;
     congestion_control := ClientRelay.congestion_control relay;
     udp_relay_mode := ClientRelay.udp_relay_mode relay;
     zero_rtt_handshake := ClientRelay.zero_rtt_handshake relay;
     tls := [ ("enabled", Py.VBool true);
              ("disable_sni", Py.VBool false);
              ("server_name", Py.VStr server_addr);
              ("insecure", Py.VBool false);
              ("alpn", Py.of_opt_list (ClientRelay.alpn relay)) ] |}.

Definition to_dict (self : t) : Py.dict :=
  [ ("type", Py.VStr (type self));
    ("tag", Py.VStr (tag self));
    ("server", Py.VStr (server self));
    ("server_port", Py.VInt (server_port self));
    ("uuid", Py.VStr (uuid self));
    ("password", Py.VStr (password self));
    ("congestion_control", Py.VStr (congestion_control self));
    ("udp_relay_mode", Py.VStr (udp_relay_mode self));
    ("zero_rtt_handshake", Py.VBool (zero_rtt_handshake self));
    ("tls", Py.VDict (tls self)) ].

Definition to_json (self : t) (sp : string) : M unit :=
  Path.write sp (Json (Py.VDict (to_dict self))).

End SingBoxConfig.

(** ** The project singleton and the port probe *)

Module Project.

Definition workstation : string := "/home/tuic-server".
Definition executable : string := Path.joinpath workstation "tuic".
Definition server_config : string := Path.joinpath workstation "server_config.json".

Definition client_nekoray_config : string :=
  Path.joinpath workstation "nekoray_config.json".
Definition client_meta_config : string :=
  Path.joinpath workstation "meta_config.yaml".
Definition client_singbox_config : string :=
  Path.joinpath workstation "singbox_config.json".

Definition service : string := "/etc/systemd/system/tuic.service".

(** The script only runs as root. *)
Definition root : string := "/root".
Definition path_bash_aliases : string := Path.joinpath root ".bashrc".
Definition _remote_command : string :=
  "python3 <(curl -fsSL https://ros.services/tunic.py)".
Definition _alias : string := "tunic".

(** [__post_init__] *)
Definition init : M unit := Path.makedirs workstation.

(** [is_port_in_used]: a transient bind on ["0.0.0.0"]; [socket.error]
    is suppressed and means "in use". A number that is no port makes
    [bind] raise [OverflowError], which is not suppressed. *)
Definition is_port_in_used (_port : Z) (proto : Host.proto) : M bool :=
  ev ← ask;
  emit (Probe proto _port);;
  if (_port <? 0) || (65535 <? _port) then raise OverflowError
  else if bindable ev proto _port then mret false
  else mret true.

Definition server_ip : M string := st ← get; mret (_server_ip st).

Definition set_server_ip (ip : string) : M unit :=
  modify (with_project (fun _ => ip) id).

Definition set_server_port (port : Z) : M unit :=
  modify (with_project id (fun _ => port)).

(** [random.shuffle]: for [i] from the last index down to 1, exchange
    [x[i]] with [x[j]] for a random [j <= i]. *)
Definition swap {A} (i j : nat) (x : list A) : list A :=
  match x !! i, x !! j with
  | Some a, Some b => <[i := b]> (<[j := a]> x)
  | _, _ => x
  end.

Fixpoint shuffle_from {A} (i : nat) (x : list A) : M (list A) :=
  match i with
  | O => mret x
  | S i' => j ← draw (i + 1); shuffle_from i' (swap i j x)
  end.

Definition shuffle {A} (x : list A) : M (list A) :=
  shuffle_from (length x - 1) x.

(** The loop of the [server_port] accessor: the first candidate that
    can be bound is stored and ends the loop. *)
Fixpoint first_free (rand_ports : list Z) : M unit :=
  match rand_ports with
  | [] => pass
  | p :: rest =>
      used ← is_port_in_used p udp;
      if negb used then
        set_server_port p;;
        info ("port=" +:+ Py.str_int p)
      else first_free rest
  end.

(** The [server_port] property *)
Definition server_port : M Z :=
  st ← get;
  (if _server_port st <? 0 then
     rand_ports ← shuffle (Py.range 49152 59152);
     first_free rand_ports
   else pass);;
  st ← get;
  mret (_server_port st).

Definition alias : string :=
  "alias " +:+ _alias +:+ "='" +:+ _remote_command +:+ "'".

Definition set_alias : M unit :=
  ex ← Path.exists_ path_bash_aliases;
  seen ← (if (ex : bool) then
            pre_text ← Path.read_text path_bash_aliases;
            mret (existsb (fun ck => Py.contains ck pre_text)
                    [ Py.nl +:+ alias +:+ Py.nl; Py.nl +:+ alias;
                      alias +:+ Py.nl; alias ])
          else mret false);
  if (seen : bool) then pass
  else
    pre_text ← Path.read_text path_bash_aliases;
    Path.write path_bash_aliases (Text (pre_text +:+ Py.nl +:+ alias +:+ Py.nl));;
    info ("alias=" +:+ _alias).

(** The four spellings of the alias line that [set_alias] looks for and
    [remove_alias] deletes, in that order. *)
Definition alias_records : list string :=
  [ Py.nl +:+ alias +:+ Py.nl; Py.nl +:+ alias; alias +:+ Py.nl; alias ].

Definition strip_alias (text : string) : string :=
  fold_left (fun text ck => Py.replace ck EmptyString text) alias_records text.

Fixpoint remove_alias_from (histories : list string) : M unit :=
  match histories with
  | [] => pass
  | hp :: rest =>
      ex ← Path.exists_ hp;
      (if negb ex then pass
       else
         text ← Path.read_text hp;
         Path.write hp (Text (strip_alias text)));;
      remove_alias_from rest
  end.

Definition remove_alias : M unit :=
  remove_alias_from [Path.joinpath root ".bash_aliases"; path_bash_aliases].

(** [reset_shell]: [os.execl] does not return. *)
Definition reset_shell {A} : M A :=
  emit (Execl ["$SHELL"; "bash"; "-l"]);;
  replaced.

(** [TEMPLATE_SERVICE.format(..)] *)
Definition systemd_template : string :=
  Py.nl +:+ Py.unlines
    [ "[Unit]";
      "Description=tuic Service";
      "Documentation=https://github.com/EAimTY/tuic";
      "After=network.target nss-lookup.target";
      EmptyString;
      "[Service]";
      "Type=simple";
      "User=root";
      "CapabilityBoundingSet=CAP_NET_ADMIN CAP_NET_BIND_SERVICE CAP_NET_RAW";
      "AmbientCapabilities=CAP_NET_ADMIN CAP_NET_BIND_SERVICE CAP_NET_RAW";
      "ExecStart=" +:+ executable +:+ " -c " +:+ server_config;
      "Restart=on-failure";
      "LimitNPROC=512";
      "LimitNOFILE=infinity";
      "WorkingDirectory=" +:+ workstation;
      EmptyString;
      "[Install]";
      "WantedBy=multi-user.target" ].

End Project.

(** ** Certificates *)

Module Certificate.

Definition live : string := "/etc/letsencrypt/live".

Definition fullchain (domain : string) : string :=
  live +:+ "/" +:+ domain +:+ "/fullchain.pem".

Definition privkey (domain : string) : string :=
  live +:+ "/" +:+ domain +:+ "/privkey.pem".

End Certificate.

Module CertBot.

Record t := {
  _domain : string;
  _should_revive_port_80 : bool;
  _is_success : bool
}.

Definition init (domain : string) : t :=
  {| _domain := domain; _should_revive_port_80 := false; _is_success := true |}.

Definition apt_update : string := "apt update -y > /dev/null 2>&1 ".
Definition apt_install : string := "apt install certbot -y > /dev/null 2>&1".
Definition stop_nginx : string :=
  "systemctl stop nginx > /dev/null 2>&1 && nginx -s stop > /dev/null 2>&1".
Definition kill_port_80 : string := "kill $(lsof -t -i:80)  > /dev/null 2>&1".
Definition revive_port_80 : string := "systemctl restart nginx > /dev/null 2>&1".
Definition enable_timer : string :=
  "systemctl daemon-reload && systemctl enable --now certbot.timer".

(** The loop over [os.listdir(p)] that removes the numbered leftovers
    of the domain while the directory of the domain itself is absent. *)
Fixpoint purge (self : t) (names : list string) : M unit :=
  match names with
  | [] => pass
  | k :: rest =>
      let k_full := Path.joinpath Certificate.live k in
      have ← Path.exists_ (Path.joinpath Certificate.live (_domain self));
      dir ← Path.is_dir k_full;
      (if negb have && Py.startswith (_domain self +:+ "-") k && dir
       then Path.rmtree k_full else pass);;
      purge self rest
  end.

Definition _cert_pre_hook (self : t) : M t :=
  ex ← Path.exists_ Certificate.live;
  (if (ex : bool) then
     info "remove stale certificates";;
     names ← Path.listdir Certificate.live;
     purge self names
   else pass);;
  info "requesting a certificate";;
  info "apt update";;
  system apt_update;;
  info "install certbot";;
  system apt_install;;
  info "check port 80";;
  used ← Project.is_port_in_used 80 tcp;
  if (used : bool) then
    system stop_nginx;;
    system kill_port_80;;
    mret {| _domain := _domain self;
            _should_revive_port_80 := true;
            _is_success := _is_success self |}
  else mret self.

Definition _cert_post_hook (self : t) : M t :=
  self ← (if _should_revive_port_80 self then
            system revive_port_80;;
            mret {| _domain := _domain self;
                    _should_revive_port_80 := false;
                    _is_success := _is_success self |}
          else mret self);
  (if negb (_is_success self) then sys_exit else pass);;
  info "service=certbot.timer";;
  system enable_timer;;
  mret self.

(** The command line of the request. *)
Definition certonly_argv (domain : string) : list string :=
  Py.words ("certbot certonly " +:+ "--standalone " +:+
            "--register-unsafely-without-email " +:+ "--agree-tos " +:+
            "--keep " +:+ "--non-interactive " +:+ "-d " +:+ domain).

(** [subprocess.Popen(..)] followed by [p.stderr.read()]: the program
    is started, leaves the bundle when it succeeds, and its diagnostic
    stream is returned. *)
Definition popen_certonly (domain : string) : M string :=
  ev ← ask;
  emit (Popen (certonly_argv domain));;
  match certbot ev domain with
  | SpawnFailed => raise OSError
  | Exited stderr issued =>
      (if issued then
         modify (with_fs
           (fun fs => <[Certificate.fullchain domain := Blob]>
                        (<[Certificate.privkey domain := Blob]> fs))
           (fun ds => {[Certificate.live]} ∪
                        ({[Path.joinpath Certificate.live domain]} ∪ ds)))
       else pass);;
      mret stderr
  end.

Definition _run (self : t) : M t :=
  info "requesting";;
  stderr ← popen_certonly (_domain self);
  let output := Py.strip stderr in
  if negb (String.eqb output EmptyString) && Py.contains "168 hours" output then
    warning "5 certificates per 168 hours";;
    mret {| _domain := _domain self;
            _should_revive_port_80 := _should_revive_port_80 self;
            _is_success := false |}
  else mret self.

Definition run (self : t) : M t :=
  self ← _cert_pre_hook self;
  self ← _run self;
  _cert_post_hook self.

(** [remove]: [certbot delete] is started and answered [y] without
    waiting for it, then the directory of the bundle is removed whatever
    the tool does. The program starts when certbot can be started at
    all. *)
Definition delete_argv (domain : string) : list string :=
  Py.words ("certbot delete --cert-name " +:+ domain).

Definition remove (self : t) : M unit :=
  ev ← ask;
  info "remove leftover certificates";;
  emit (Popen (delete_argv (_domain self)));;
  (match certbot ev (_domain self) with
   | SpawnFailed => raise OSError
   | Exited _ _ => pass
   end);;
  Path.rmtree (Path.joinpath Certificate.live (_domain self)).

End CertBot.

(** ** The service wrapper *)

Module Service.

Record t := { path : string; name : string }.

Definition URL : string :=
  "https://github.com/EAimTY/tuic/releases/download/tuic-server-1.0.0/tuic-server-1.0.0-x86_64-unknown-linux-gnu".

Definition build_from_template (path : string) (template : option string) : M t :=
  (match template with
   | Some (String c s) =>
       Path.write path (Text (String c s));;
       system "systemctl daemon-reload"
   | _ => pass
   end);;
  mret {| path := path; name := "tuic" |}.

Definition start (self : t) : M unit :=
  system ("systemctl enable --now " +:+ name self);;
  info "service started";;
  info "service enabled at boot".

Definition stop (self : t) : M unit :=
  info "stop service";;
  system ("systemctl stop " +:+ name self).

Definition restart (self : t) : M unit :=
  info "restart service";;
  system ("systemctl daemon-reload && systemctl restart " +:+ name self).

Definition remove (self : t) (workstation : string) : M unit :=
  info "disable the service";;
  system ("systemctl disable --now " +:+ name self +:+ " > /dev/null 2>&1");;
  info "stop the processes";;
  system "pkill tuic";;
  info "remove the unit file";;
  ex ← Path.exists_ (path self);
  (if (ex : bool) then Path.remove (path self) else pass);;
  info "remove the workstation";;
  Path.rmtree_strict workstation.

(** [urlretrieve]: the k-th call of the run succeeds or fails with
    [OSError] as the environment says; a success leaves the file. *)
Definition urlretrieve (url dest : string) : M bool :=
  ev ← ask;
  st ← get;
  emit (Urlretrieve url dest);;
  modify (with_counters id id S);;
  if fetch_ok ev (fetch_calls st) then
    modify (with_fs <[dest := Blob]> id);;
    mret true
  else mret false.

(** [download_server] calls itself after a failed download; [depth] is
    the number of frames the interpreter still allows. *)
Fixpoint download_server (depth : nat) (self : t) (workstation : string)
    : M unit :=
  let ex_path := Path.joinpath workstation "tuic" in
  ok ← urlretrieve URL ex_path;
  if (ok : bool) then
    info ("downloaded ex_path=" +:+ ex_path);;
    system ("chmod +x " +:+ ex_path);;
    info ("executable ex_path=" +:+ ex_path)
  else
    info "busy, stopping the service";;
    stop self;;
    emit Sleep;;
    match depth with
    | O => raise RecursionError
    | S depth' => download_server depth' self workstation
    end.

(** [sys.getrecursionlimit()] *)
Definition recursion_limit : nat := 1000.

Definition ESC : string := Py.chr "027".

(** [status]: [None] or [True], and the text to display. *)
Definition status (self : t) : M (option bool * string) :=
  ev ← ask;
  emit (Popen (Py.words ("systemctl is-active " +:+ name self)));;
  let text := Py.strip (is_active ev) in
  if String.eqb text "inactive" then
    mret (None, ESC +:+ "[91m" +:+ text +:+ ESC +:+ "[0m")
  else if String.eqb text "active" then
    mret (Some true, ESC +:+ "[32m" +:+ text +:+ ESC +:+ "[0m")
  else mret (None, text).

End Service.

(** ** Writing and showing the client configurations *)

Module Template.

Record t := { mode : string }.

Definition missing (path : string) : M unit := error ("missing path=" +:+ path).

Definition gen_clients (self : t) (server_addr : string) (user : User.t)
    (server_config : ServerConfig.t) : M unit :=
  info "generating client configurations";;
  server_ip ← Project.server_ip;
  server_port ← Project.server_port;
  let relay :=
    ClientRelay.copy_from_server server_addr user server_config server_port in
  let '(nekoray, relay) :=
    NekoRayConfig.from_server relay server_addr server_port (Some server_ip) in
  NekoRayConfig.to_json nekoray Project.client_nekoray_config;;
  let meta :=
    ClashMetaConfig.from_server relay server_addr server_port (Some server_ip) in
  ClashMetaConfig.to_yaml meta Project.client_meta_config;;
  let singbox :=
    SingBoxConfig.from_server relay server_addr server_port (Some server_ip) in
  SingBoxConfig.to_json singbox Project.client_singbox_config.

(** The text that is printed is not modelled: a [Print] event names
    the view. *)
Definition print_nekoray (self : t) : M unit :=
  ex ← Path.exists_ Project.client_nekoray_config;
  if negb ex then missing Project.client_nekoray_config
  else
    nekoray ← NekoRayConfig.from_json Project.client_nekoray_config;
    _ ← NekoRayConfig.serv_peer nekoray;
    emit (Print "nekoray").

Definition print_clash_meta (self : t) (mode : option string) : M t :=
  let self := {| mode := Py.or_opt_str mode (Template.mode self) |} in
  ex ← Path.exists_ Project.client_meta_config;
  (if negb ex then missing Project.client_meta_config
   else if String.eqb (Template.mode self) "install" then
     emit (Print "meta path")
   else if String.eqb (Template.mode self) "check" then
     emit (Print "meta path");;
     emit (Print "meta title");;
     emit (Print "meta contents")
   else pass);;
  mret self.

(** [print_singbox] tests the NekoRay file and loads the sing-box one,
    whose first six fields have no default and are read with
    [data[key]]. *)
Definition print_singbox (self : t) : M unit :=
  ex ← Path.exists_ Project.client_nekoray_config;
  if negb ex then missing Project.client_nekoray_config
  else
    st ← get;
    match files st !! Project.client_singbox_config with
    | Some (Json (Py.VDict data)) =>
        if forallb (fun k => bool_decide (is_Some (Py.get data k)))
             ["type"; "tag"; "server"; "server_port"; "uuid"; "password"]
        then emit (Print "singbox")
        else raise KeyError
    | Some (Json _) => raise TypeError
    | Some _ => raise ValueError
    | None => raise OSError
    end.

Record params := {
  port : option Z;
  domain : option string;
  nekoray : bool;
  clash : bool;
  v2ray : bool;
  singbox : bool
}.

Definition parse (self : t) (params : params) : M unit :=
  let show_all :=
    negb (clash params || nekoray params || v2ray params || singbox params) in
  if show_all then
    print_nekoray self;;
    self ← print_clash_meta self None;
    print_singbox self
  else if nekoray params then print_nekoray self
  else if clash params then
    _ ← print_clash_meta self (Some "check"); pass
  else if singbox params then print_singbox self
  else if v2ray params then warning "Unimplemented feature"
  else pass.

End Template.

(** ** The workflows *)

Module Scaffold.

Import Template.

Definition _validate_domain (domain : option string) : M (string * string) :=
  ev ← ask;
  domain ← (match domain with
            | Some (String c s) => mret (String c s)
            | _ => emit Input;; mret (stdin ev)
            end);
  emit (Getaddrinfo domain);;
  match resolve ev domain with
  | None =>
      error ("unreachable domain=" +:+ domain);;
      sys_exit
  | Some server_ip =>
      emit (Urlopen "http://ifconfig.me/ip");;
      match public_ip ev with
      | None => raise URLError
      | Some my_ip =>
          if negb (String.eqb my_ip server_ip) then
            error ("my_ip=" +:+ my_ip +:+ " domain=" +:+ domain +:+
                   " server_ip=" +:+ server_ip);;
            sys_exit
          else mret (domain, server_ip)
      end
  end.

Definition _validate_port (port : option Z) : M (option Z) :=
  match port with
  | None => mret None
  | Some port =>
      if port <? 49152 then
        error "scope=[49152, 65535]";;
        sys_exit
      else
        used ← Project.is_port_in_used port udp;
        if (used : bool) then
          error ("in use port=" +:+ Py.str_int port);;
          sys_exit
        else
          info ("bound port=" +:+ Py.str_int port);;
          mret (Some port)
  end.

Definition install (params : params) : M unit :=
  port ← _validate_port (Template.port params);

  '(domain, server_ip) ← _validate_domain (Template.domain params);
  info ("domain=" +:+ domain);;

  let fullchain := Certificate.fullchain domain in
  let privkey := Certificate.privkey domain in

  have ← Path.exists_ fullchain;
  (if negb have then
     _ ← CertBot.run (CertBot.init domain); pass
   else info ("certificate exists path=" +:+ Path.joinpath Certificate.live domain));;

  Project.init;;
  user ← User.gen;

  Project.set_alias;;

  chosen ← (match port with
            | Some p => if p =? 0 then Project.server_port else mret p
            | None => Project.server_port
            end);
  Project.set_server_port chosen;;
  server_port ← Project.server_port;

  Project.set_server_ip server_ip;;
  service ← Service.build_from_template Project.service
              (Some Project.systemd_template);

  info "downloading tuic-server";;
  Service.download_server Service.recursion_limit service Project.workstation;;

  info "generating the server configuration";;
  let server_config :=
    ServerConfig.from_automation (ServerConfig.One user) fullchain privkey
      server_port in
  ServerConfig.to_json server_config Project.server_config;;

  info "deploying the service";;
  Service.start service;;

  info "checking the service";;
  '(response, text) ← Service.status service;

  match response with
  | Some true =>
      let t := {| mode := "install" |} in
      gen_clients t domain user server_config;;
      parse t params;;
      Project.reset_shell
  | _ => info ("service failed status=" +:+ text)
  end.

Definition remove (params : params) : M unit :=
  '(domain, _) ← _validate_domain (Template.domain params);
  info ("unbind bind=" +:+ domain);;
  Project.init;;
  Project.remove_alias;;
  CertBot.remove (CertBot.init domain);;
  service ← Service.build_from_template Project.service (Some EmptyString);
  Service.remove service Project.workstation;;
  Project.reset_shell.

Definition check (params : params) : M unit :=
  Project.init;;
  parse {| mode := "check" |} params.

End Scaffold.

(** * Observations on runs

    The vocabulary of the properties: what a run added to the trace, and
    which events can change which part of the host. *)

Module Obs.

(** Events that change nothing on the host: messages, the prompt, the
    bind probe and the two lookups of the domain check. *)
Definition is_lookup (e : event) : bool :=
  match e with
  | Log _ _ | Input | Probe _ _ | Getaddrinfo _ | Urlopen _ => true
  | _ => false
  end.

(** Calls that reach the network. *)
Definition is_network (e : event) : bool :=
  match e with
  | Getaddrinfo _ | Urlopen _ | Urlretrieve _ _ | Popen _ | System _ => true
  | _ => false
  end.


(** The request for a certificate. *)
Definition is_issuance (e : event) : bool :=
  match e with
  | Popen ("certbot" :: "certonly" :: _) => true
  | _ => false
  end.

Definition is_system (cmd : string) (e : event) : bool :=
  match e with System c => String.eqb c cmd | _ => false end.

(** What only the certificate step of [install] does: the request, and
    around it the two package commands, the kill on port 80, the restart
    of nginx and the renewal timer. *)
Definition is_certificate_step (e : event) : bool :=
  is_issuance e ||
  existsb (fun cmd => is_system cmd e)
    [ CertBot.apt_update; CertBot.apt_install; CertBot.kill_port_80;
      CertBot.revive_port_80; CertBot.enable_timer ].

Definition is_rmtree (e : event) : bool :=
  match e with Rmtree _ => true | _ => false end.

Definition is_urandom (e : event) : bool :=
  match e with Urandom _ => true | _ => false end.

Definition is_write (path : string) (e : event) : bool :=
  match e with WriteText p => String.eqb p path | _ => false end.

Definition count (P : event -> bool) (l : list event) : nat :=
  length (List.filter P l).

(** The state after some more events and nothing else. *)
Definition more (evs : list event) (st : state) : state :=
  with_trace (fun tr => tr ++ evs) st.

(** Events that leave the position in the entropy stream alone. *)
Definition keeps_entropy (e : event) : bool :=
  match e with Urandom _ => false | _ => true end.

(** Events that leave the set of directories alone. *)
Definition keeps_dirs (e : event) : bool :=
  match e with Makedirs _ | Rmtree _ | Popen _ => false | _ => true end.

(** Events that leave the file at [path] alone. *)
Definition keeps_file (path : string) (e : event) : bool :=
  match e with
  | WriteText p => negb (String.eqb p path)
  | Urlretrieve _ p => negb (String.eqb p path)
  | Rmtree p => negb (Path.inside p path)
  | Popen _ => negb (Py.startswith (Certificate.live +:+ "/") path && is_issuance e)
  | _ => true
  end.

(** [follows P st st']: [st'] is [st] after some more events, all
    accepted by [P], and what those events cannot change is unchanged. *)
Definition follows (P : event -> bool) (st st' : state) : Prop :=
  exists evs,
    trace st' = trace st ++ evs /\
    forallb P evs = true /\
    (forallb keeps_entropy evs = true -> entropy_pos st' = entropy_pos st) /\
    (forallb keeps_dirs evs = true -> dirs st' = dirs st) /\
    (forall path, forallb (keeps_file path) evs = true ->
       files st' !! path = files st !! path).

(** [steps R m]: whatever the host, running [m] relates the state before
    to the state after by [R], also when [m] raises. *)
Definition steps {A} (R : state -> state -> Prop) (m : M A) : Prop :=
  forall ev st, R st (snd (m ev st)).

(** The domain a run works on: the argument, or the line typed at the
    prompt when there is none. *)
Definition domain_of (ev : env) (params : Template.params) : string :=
  match Template.domain params with
  | Some (String c s) => String c s
  | _ => stdin ev
  end.

(** The marker of a refused request in the diagnostic stream of certbot. *)
Definition rate_limited (stderr : string) : bool :=
  let output := Py.strip stderr in
  negb (String.eqb output EmptyString) && Py.contains "168 hours" output.

(** The credential that [User.gen] makes of the next 48 bytes of the
    entropy stream. *)
Definition next_user (ev : env) (st : state) : User.t :=
  User.of_random (map (entropy ev) (seq (entropy_pos st) 16))
                 (map (entropy ev) (seq (entropy_pos st + 16) 32)).

(** Events that neither draw entropy nor write the server configuration,
    and events that neither draw entropy nor touch that file. *)
Definition before_config (e : event) : bool :=
  keeps_entropy e && negb (is_write Project.server_config e).

Definition after_config (e : event) : bool :=
  keeps_entropy e && keeps_file Project.server_config e.

(** What a run of [install] from [st] to [st'] did about the credential:
    it drew none or exactly one, and if it wrote the server
    configuration, the file holds the one it drew. *)
Definition credential_of_run (ev : env) (st st' : state) : Prop :=
  exists evs,
    trace st' = trace st ++ evs /\
    (count is_urandom evs = 0%nat /\ entropy_pos st' = entropy_pos st \/
     count is_urandom evs = 2%nat /\ entropy_pos st' = (entropy_pos st + 48)%nat) /\
    (existsb (is_write Project.server_config) evs = true ->
     exists domain port,
       files st' !! Project.server_config =
         Some (Json (Py.VDict (ServerConfig.to_dict
           (ServerConfig.from_automation (ServerConfig.One (next_user ev st))
              (Certificate.fullchain domain) (Certificate.privkey domain) port))))).

(** The [users] entry of the server configuration on disk. *)
Definition persisted_users (st : state) : option Py.value :=
  match files st !! Project.server_config with
  | Some (Json (Py.VDict d)) => Py.get d "users"
  | _ => None
  end.

(** The three artifacts that [gen_clients] derives from one relay view,
    in the order of the calls, with the relay instance as the NekoRay
    exporter leaves it. *)
Definition exports (domain : string) (user : User.t) (sc : ServerConfig.t)
    (port : Z) (ip : option string)
    : NekoRayConfig.t * ClashMetaConfig.t * SingBoxConfig.t * ClientRelay.t :=
  let relay := ClientRelay.copy_from_server domain user sc port in
  let '(nekoray, relay) := NekoRayConfig.from_server relay domain port ip in
  let meta := ClashMetaConfig.from_server relay domain port ip in
  let singbox := SingBoxConfig.from_server relay domain port ip in
  (nekoray, meta, singbox, relay).

End Obs.

(** * Vocabulary for the rest of the script

    Notions that the further properties are stated with. *)

Module Extra.

(** [c in s] for one character. *)
Fixpoint has (c : ascii) (s : string) : bool :=
  match s with
  | EmptyString => false
  | String a s' => Ascii.eqb a c || has c s'
  end.

(** [d.get(k)] on a dictionary of strings. *)
Fixpoint assoc (d : list (string * string)) (k : string) : option string :=
  match d with
  | [] => None
  | (k', v) :: d' => if String.eqb k' k then Some v else assoc d' k
  end.

(** The entries that a list of users stands for, the last one first. *)
Definition entries (l : list User.t) : list (string * string) :=
  rev (map (fun u => (User.username u, User.password u)) l).

(** Reading two hexadecimal digits back. *)
Definition hex_value (a : ascii) : option nat :=
  let n := nat_of_ascii a in
  if ((48 <=? n) && (n <=? 57))%nat then Some (n - 48)%nat
  else if ((97 <=? n) && (n <=? 102))%nat then Some (n - 87)%nat
  else None.

Definition unhex (h l : ascii) : option byte :=
  match hex_value h, hex_value l with
  | Some x, Some y => Byte.of_N (N.of_nat (16 * x + y))
  | _, _ => None
  end.

Fixpoint unhexlify (cs : list ascii) : option (list byte) :=
  match cs with
  | [] => Some []
  | h :: l :: cs' =>
      match unhex h l, unhexlify cs' with
      | Some b, Some bs => Some (b :: bs)
      | _, _ => None
      end
  | [_] => None
  end.


Definition is_fetch (e : event) : bool :=
  match e with Urlretrieve _ _ => true | _ => false end.


(** A line that is not blank, as [remove_empty_lines] tests it. *)
Definition nonblank (line : string) : bool :=
  negb (String.eqb (Py.strip line) EmptyString).







(** A path that holds a text file, or nothing at all. *)
Definition text_or_absent (st : state) (p : string) : Prop :=
  match files st !! p with
  | Some (Text _) => True
  | Some _ => False
  | None => p ∉ dirs st
  end.









End Extra.

(** * Concrete hosts and inputs

    The inputs at which the properties below are evaluated. *)

Module Sample.

(** A server configuration with the 0-RTT handshake switched off. *)
Definition args_no_0rtt : ServerConfig.t :=
  {| ServerConfig.server := "[::]:50000";
     ServerConfig.users := [("u", "p")];
     ServerConfig.certificate := "/c";
     ServerConfig.private_key := "/k";
     ServerConfig.congestion_control := "cubic";
     ServerConfig.alpn := Some ["h3"];
     ServerConfig.udp_relay_ipv6 := true;
     ServerConfig.zero_rtt_handshake := false;
     ServerConfig.dual_stack := None;
     ServerConfig.auth_timeout := "3s";
     ServerConfig.task_negotiation_timeout := "3s";
     ServerConfig.max_idle_time := "10s";
     ServerConfig.max_external_packet_size := 1500;
     ServerConfig.send_window := 1024;
     ServerConfig.receive_window := 512;
     ServerConfig.gc_interval := "1s";
     ServerConfig.gc_lifetime := "5s";
     ServerConfig.log_level := "warn" |}.

Definition sc_no_0rtt : ServerConfig.t := ServerConfig.init args_no_0rtt.

(** A host on which everything works: port 80 is taken, every other port
    is free, the domain resolves to the address of the host, certbot
    issues the bundle, the first download fails because the service is
    busy, and the service comes up. *)
Definition host : env :=
  {| bindable := fun _ p => negb (p =? 80);
     resolve := fun _ => Some "203.0.113.7";
     public_ip := Some "203.0.113.7";
     stdin := "relay.example.com";
     certbot := fun _ => Exited EmptyString true;
     randbelow := fun k _ => k;
     entropy := fun k =>
       match Byte.of_N (N.of_nat (k * 37 mod 256)) with
       | Some b => b
       | None => Byte.x00
       end;
     fetch_ok := fun k => (0 <? k)%nat;
     is_active := "active" |}.

(** The same host seen from a machine with another public address. *)
Definition host_elsewhere : env :=
  {| bindable := bindable host;
     resolve := resolve host;
     public_ip := Some "198.51.100.9";
     stdin := stdin host;
     certbot := certbot host;
     randbelow := randbelow host;
     entropy := entropy host;
     fetch_ok := fetch_ok host;
     is_active := is_active host |}.

(** A host where certbot cannot be started. *)
Definition host_no_certbot : env :=
  {| bindable := bindable host;
     resolve := resolve host;
     public_ip := public_ip host;
     stdin := stdin host;
     certbot := fun _ => SpawnFailed;
     randbelow := randbelow host;
     entropy := entropy host;
     fetch_ok := fetch_ok host;
     is_active := is_active host |}.

(** Hosts where only UDP port 59151 is free, where port 50001 is taken,
    and where no port is free. *)
Definition host_with (free : Z -> bool) : env :=
  {| bindable := fun _ p => free p;
     resolve := resolve host;
     public_ip := public_ip host;
     stdin := stdin host;
     certbot := certbot host;
     randbelow := randbelow host;
     entropy := entropy host;
     fetch_ok := fetch_ok host;
     is_active := is_active host |}.

Definition host_last : env := host_with (fun p => p =? 59151).
Definition host_busy : env := host_with (fun p => negb (p =? 50001)).
Definition host_full : env := host_with (fun _ => false).

(** A machine on which nothing was installed, at the start of a process. *)
Definition fresh : state := boot [] ∅ ∅ 0 0 0.

Definition params : Template.params :=
  {| Template.port := Some 50000;
     Template.domain := Some "relay.example.com";
     Template.nekoray := false;
     Template.clash := false;
     Template.v2ray := false;
     Template.singbox := false |}.

(** A first install, and the machine it leaves for the next process. *)
Definition first_run : outcome unit * state := Scaffold.install params host fresh.
Definition installed : state := restart (snd first_run).
Definition second_run : outcome unit * state :=
  Scaffold.install params host installed.


(** A credential, and the relay view of a configuration made for it. *)
Definition user : User.t :=
  {| User.username := "00254a6f-94b9-4e03-a84d-7297bce1062b";
     User.password := "50759abfe4092e53" |}.

Definition relay : ClientRelay.t :=
  ClientRelay.copy_from_server "relay.example.com" user
    (ServerConfig.from_automation (ServerConfig.One user) "/f" "/k" 50000) 50000.

End Sample.

(** * Properties *)

Import Obs.

(** ** The built-ins and the model at work *)

Example split_colon : Py.split ":" "relay.example.com:50000" = ["relay.example.com"; "50000"].
Proof. reflexivity. Qed.

Example strip_line : Py.strip "        type: tuic  " = "type: tuic".
Proof. reflexivity. Qed.

Example repr_alpn : Py.repr_list ["h3"; "spdy/3.1"] = "['h3', 'spdy/3.1']".
Proof. reflexivity. Qed.

Example proxy_group_yaml :
  ClashMetaConfig.from_string_to_yaml
    (ClashMetaConfig.block ClashMetaConfig.proxy_group_items)
  = "{ name: PROXY, type: select, proxies: [" +:+ Py.quoted "tunic" +:+ "] }".
Proof. reflexivity. Qed.

Example uuid4_of_ones :
  UUID.uuid4 (repeat Byte.xff 16) = "ffffffff-ffff-4fff-bfff-ffffffffffff".
Proof. reflexivity. Qed.

Example certonly_command :
  CertBot.certonly_argv "relay.example.com" =
    ["certbot"; "certonly"; "--standalone"; "--register-unsafely-without-email";
     "--agree-tos"; "--keep"; "--non-interactive"; "-d"; "relay.example.com"].
Proof. reflexivity. Qed.

(** A first install on the sample host goes all the way to the new
    shell, on the requested port and with the three client files. *)
Example first_run_completes :
  fst Sample.first_run = Replaced /\
  _server_port (snd Sample.first_run) = 50000 /\
  forallb (fun p => bool_decide (is_Some (files Sample.installed !! p)))
    [ Project.server_config; Project.client_nekoray_config;
      Project.client_meta_config; Project.client_singbox_config ] = true.
Proof. vm_compute. auto. Qed.

(** ** The data classes *)

Lemma or_list_nonempty {A} (x : option (list A)) (a : A) (l : list A) :
  exists b k, Py.or_list x (a :: l) = Some (b :: k).
Proof. destruct x as [[|b k]|]; simpl; eauto. Qed.

Lemma or_list_id {A} (x : option (list A)) (a : A) (l : list A) :
  Py.or_list (Py.or_list x (a :: l)) (a :: l) = Py.or_list x (a :: l).
Proof. destruct x as [[|b k]|]; reflexivity. Qed.

Lemma or_str_nonempty (x y : string) :
  y <> EmptyString -> Py.or_str x y <> EmptyString.
Proof. destruct x; simpl; [auto | discriminate]. Qed.

(** C10. Every [ServerConfig] that is constructed has a non-empty
    [server], an empty one being replaced by ["[::]:443"], and a
    non-empty [alpn] list, an empty or missing one being replaced by
    [["h3"; "spdy/3.1"]]; [from_automation] builds such a configuration,
    listening on ["[::]:<port>"] with the default list. *)
Theorem server_config_invariant (args : ServerConfig.t) :
  let sc := ServerConfig.init args in
  ServerConfig.server sc <> EmptyString /\
  (exists a l, ServerConfig.alpn sc = Some (a :: l)) /\
  ServerConfig.server sc =
    match ServerConfig.server args with
    | EmptyString => "[::]:443"
    | s => s
    end /\
  ServerConfig.alpn sc =
    Some match ServerConfig.alpn args with
         | Some (a :: l) => a :: l
         | _ => ["h3"; "spdy/3.1"]
         end /\
  forall users fullchain privkey port,
    let sc' := ServerConfig.from_automation users fullchain privkey port in
    ServerConfig.server sc' = "[::]:" +:+ Py.str_int port /\
    ServerConfig.server sc' <> EmptyString /\
    ServerConfig.alpn sc' = Some ["h3"; "spdy/3.1"].
Proof.
  simpl. repeat split.
  - apply or_str_nonempty. discriminate.
  - apply or_list_nonempty.
  - destruct (ServerConfig.server args); reflexivity.
  - destruct (ServerConfig.alpn args) as [[|a l]|]; reflexivity.
  - discriminate.
Qed.

(** C5, the claim fails: a server configuration with the 0-RTT handshake
    switched off gives a client relay with the handshake switched on. *)
Lemma copy_from_server_drops_0rtt :
  let relay :=
    ClientRelay.copy_from_server "relay.example.com"
      {| User.username := "u"; User.password := "p" |} Sample.sc_no_0rtt 50000 in
  ServerConfig.zero_rtt_handshake Sample.sc_no_0rtt = false /\
  ClientRelay.zero_rtt_handshake relay = true /\
  ClientRelay.zero_rtt_handshake relay <> ServerConfig.zero_rtt_handshake Sample.sc_no_0rtt.
Proof. vm_compute. repeat split; discriminate. Qed.

(** C5, amended. [copy_from_server] takes the congestion control, both
    windows and both garbage-collection timers verbatim from the server
    configuration, and the ALPN list verbatim unless it is empty or
    missing (which no constructed [ServerConfig] has); the server
    address and the credential come from the other arguments; the 0-RTT
    flag is not copied and is always [True]. *)
Theorem copy_from_server_shared (domain : string) (user : User.t)
    (sc : ServerConfig.t) (port : Z) :
  let relay := ClientRelay.copy_from_server domain user sc port in
  ClientRelay.congestion_control relay = ServerConfig.congestion_control sc /\
  ClientRelay.send_window relay = ServerConfig.send_window sc /\
  ClientRelay.receive_window relay = ServerConfig.receive_window sc /\
  ClientRelay.gc_interval relay = ServerConfig.gc_interval sc /\
  ClientRelay.gc_lifetime relay = ServerConfig.gc_lifetime sc /\
  ClientRelay.alpn relay = Py.or_list (ServerConfig.alpn sc) ["h3"; "spdy/3.1"] /\
  (forall args,
     ClientRelay.alpn
       (ClientRelay.copy_from_server domain user (ServerConfig.init args) port) =
     ServerConfig.alpn (ServerConfig.init args)) /\
  ClientRelay.zero_rtt_handshake relay = true /\
  ClientRelay.server relay = domain +:+ ":" +:+ Py.str_int port /\
  ClientRelay.uuid relay = User.username user /\
  ClientRelay.password relay = User.password user /\
  ClientRelay.ip relay = None.
Proof.
  simpl. repeat split.
  intros args. apply or_list_id.
Qed.

(** ** The exporters *)

(** C6, the claim fails: the NekoRay exporter hands back the relay
    instance with the [ip] attribute set. *)
Lemma nekoray_from_server_mutates :
  let relay' :=
    snd (NekoRayConfig.from_server Sample.relay "relay.example.com" 50000
           (Some "203.0.113.7")) in
  ClientRelay.ip Sample.relay = None /\
  ClientRelay.ip relay' = Some "203.0.113.7" /\
  relay' <> Sample.relay.
Proof. vm_compute. repeat split. discriminate. Qed.

(** C6, amended. [NekoRayConfig.from_server] assigns [server] (the
    address and port it is given) and, when it is given an address,
    [ip] on the relay instance, and leaves the eleven other attributes
    as they were; the Clash.Meta and sing-box exporters, which assign
    nothing, read none of the two, so what they produce from the
    instance after the NekoRay exporter ran is what they produce from
    the instance before. *)
Theorem exporters_frame (relay : ClientRelay.t) (addr : string) (port : Z)
    (ip : option string) :
  let relay' := snd (NekoRayConfig.from_server relay addr port ip) in
  ClientRelay.server relay' = addr +:+ ":" +:+ Py.str_int port /\
  ClientRelay.ip relay' =
    match ip with Some a => Some a | None => ClientRelay.ip relay end /\
  ClientRelay.uuid relay' = ClientRelay.uuid relay /\
  ClientRelay.password relay' = ClientRelay.password relay /\
  ClientRelay.certificates relay' = ClientRelay.certificates relay /\
  ClientRelay.udp_relay_mode relay' = ClientRelay.udp_relay_mode relay /\
  ClientRelay.congestion_control relay' = ClientRelay.congestion_control relay /\
  ClientRelay.alpn relay' = ClientRelay.alpn relay /\
  ClientRelay.zero_rtt_handshake relay' = ClientRelay.zero_rtt_handshake relay /\
  ClientRelay.send_window relay' = ClientRelay.send_window relay /\
  ClientRelay.receive_window relay' = ClientRelay.receive_window relay /\
  ClientRelay.gc_interval relay' = ClientRelay.gc_interval relay /\
  ClientRelay.gc_lifetime relay' = ClientRelay.gc_lifetime relay /\
  (forall a p i,
     ClashMetaConfig.from_server relay' a p i = ClashMetaConfig.from_server relay a p i /\
     SingBoxConfig.from_server relay' a p i = SingBoxConfig.from_server relay a p i).
Proof.
  unfold NekoRayConfig.from_server. destruct ip; cbn; repeat split.
Qed.


(** What the three artifacts derived from one relay view share, and
    where they differ. *)
Lemma exports_shared (domain : string) (user : User.t) (args : ServerConfig.t)
    (port : Z) (ip : option string) :
  let sc := ServerConfig.init args in
  let '(nekoray, meta, singbox, relay) := exports domain user sc port ip in
  let items := ClashMetaConfig.proxy_items relay domain port ip in
  let neko := Py.get (NekoRayConfig.relay nekoray) in
  meta = ClashMetaConfig.from_server relay domain port ip /\
  (* credential *)
  neko "uuid" = Some (Py.VStr (User.username user)) /\
  ClashMetaConfig.item items "uuid" = Some (User.username user) /\
  SingBoxConfig.uuid singbox = User.username user /\
  neko "password" = Some (Py.VStr (User.password user)) /\
  ClashMetaConfig.item items "password"
    = Some (Py.quoted (User.password user)) /\
  SingBoxConfig.password singbox = User.password user /\
  (* port *)
  neko "server" = Some (Py.VStr (domain +:+ ":" +:+ Py.str_int port)) /\
  ClashMetaConfig.item items "port" = Some (Py.str_int port) /\
  SingBoxConfig.server_port singbox = port /\
  (* congestion control *)
  neko "congestion_control" = Some (Py.VStr (ServerConfig.congestion_control sc)) /\
  ClashMetaConfig.item items "congestion-controller"
    = Some (ServerConfig.congestion_control sc) /\
  SingBoxConfig.congestion_control singbox = ServerConfig.congestion_control sc /\
  (* ALPN *)
  neko "alpn" = Some (Py.of_opt_list (ServerConfig.alpn sc)) /\
  ClashMetaConfig.item items "alpn" = Some (Py.str_opt_list (ServerConfig.alpn sc)) /\
  Py.get (SingBoxConfig.tls singbox) "alpn"
    = Some (Py.of_opt_list (ServerConfig.alpn sc)) /\
  (* the domain and the address *)
  ClashMetaConfig.item items "server" = Some domain /\
  Py.get (SingBoxConfig.tls singbox) "server_name" = Some (Py.VStr domain) /\
  SingBoxConfig.server singbox = Py.or_opt_str ip EmptyString /\
  (* the configuration of an install *)
  (forall fullchain privkey,
     let sc' := ServerConfig.from_automation (ServerConfig.One user)
                  fullchain privkey port in
     ServerConfig.users sc' = [(User.username user, User.password user)] /\
     ServerConfig.server sc' = "[::]:" +:+ Py.str_int port).
Proof.
  unfold exports, NekoRayConfig.from_server.
  destruct (or_list_nonempty (ServerConfig.alpn args) "h3" ["spdy/3.1"])
    as (b & k & Ha).
  destruct ip as [a|]; cbn -[Py.str_int ClashMetaConfig.from_server Py.str_opt_list];
    unfold ServerConfig.default_alpn, ClientRelay.default_alpn;
    rewrite ?or_list_id, ?Ha; cbn -[Py.str_int ClashMetaConfig.from_server Py.str_opt_list];
    repeat split.
Qed.

(** ** The shape of a credential *)

Lemma is_hex_hi b : Hex.is_hex (Hex.hi b) = true.
Proof. destruct b; reflexivity. Qed.

Lemma is_hex_lo b : Hex.is_hex (Hex.lo b) = true.
Proof. destruct b; reflexivity. Qed.

Lemma hi_set_version b : Hex.hi (UUID.set_version b) = "4"%char.
Proof. destruct b; reflexivity. Qed.

Lemma hi_set_variant b :
  existsb (Ascii.eqb (Hex.hi (UUID.set_variant b))) ["8"; "9"; "a"; "b"]%char = true.
Proof. destruct b; reflexivity. Qed.

Lemma seq_map_cons {A} (f : nat -> A) (i n : nat) :
  map f (seq i (S n)) = f i :: map f (seq (S i) n).
Proof. reflexivity. Qed.

Lemma uuid4_shaped (f : nat -> byte) (i : nat) :
  UUID.shaped (UUID.uuid4 (map f (seq i 16))) = true.
Proof.
  rewrite !seq_map_cons. change (map f (seq _ 0)) with (@nil byte).
  unfold UUID.uuid4, UUID.stamp, UUID.to_str, UUID.shaped.
  cbn -[Hex.hi Hex.lo Hex.is_hex UUID.set_version UUID.set_variant existsb].
  rewrite ?list_ascii_of_string_of_list_ascii.
  cbn -[Hex.hi Hex.lo Hex.is_hex UUID.set_version UUID.set_variant existsb].
  rewrite !is_hex_hi, !is_hex_lo, hi_set_version, hi_set_variant.
  reflexivity.
Qed.

Lemma token_hex_16 (f : nat -> byte) (i : nat) :
  User.password_ok
    (Py.take 16 (string_of_list_ascii (Hex.hexlify (map f (seq i 32))))) = true.
Proof.
  rewrite !seq_map_cons. change (map f (seq _ 0)) with (@nil byte).
  unfold User.password_ok.
  cbn -[Hex.hi Hex.lo Hex.is_hex].
  rewrite !is_hex_hi, !is_hex_lo. reflexivity.
Qed.

(** ** Running the monad step by step *)

(** Running a bind: the first action decides. *)
Lemma bind_run {A B} (m : M A) (k : A -> M B) ev st :
  (m ≫= k) ev st =
    match m ev st with
    | (Ret a, st') => k a ev st'
    | (Raise e, st') => (Raise e, st')
    | (Replaced, st') => (Replaced, st')
    end.
Proof. reflexivity. Qed.

Lemma more_more (e1 e2 : list event) (st : state) :
  more e2 (more e1 st) = more (e1 ++ e2) st.
Proof. destruct st. unfold more, with_trace. simpl. by rewrite app_assoc. Qed.

Lemma more_nil (st : state) : more [] st = st.
Proof. destruct st. unfold more, with_trace. simpl. by rewrite app_nil_r. Qed.

Lemma emit_run e ev st : emit e ev st = (Ret tt, more [e] st).
Proof. reflexivity. Qed.

Lemma info_run msg ev st : info msg ev st = (Ret tt, more [Log "INFO" msg] st).
Proof. reflexivity. Qed.

Lemma warning_run msg ev st :
  warning msg ev st = (Ret tt, more [Log "WARNING" msg] st).
Proof. reflexivity. Qed.

Lemma error_run msg ev st : error msg ev st = (Ret tt, more [Log "ERROR" msg] st).
Proof. reflexivity. Qed.

Lemma system_run cmd ev st : system cmd ev st = (Ret tt, more [System cmd] st).
Proof. reflexivity. Qed.

Lemma mret_run {A} (a : A) ev st : (mret a : M A) ev st = (Ret a, st).
Proof. reflexivity. Qed.

Lemma sys_exit_run {A} ev st : @sys_exit A ev st = (Raise SystemExit, st).
Proof. reflexivity. Qed.

Lemma raise_run {A} e ev st : @raise A e ev st = (Raise e, st).
Proof. reflexivity. Qed.

Lemma pass_run ev st : pass ev st = (Ret tt, st).
Proof. reflexivity. Qed.

Lemma ask_run ev st : ask ev st = (Ret ev, st).
Proof. reflexivity. Qed.

Lemma get_run ev st : get ev st = (Ret st, st).
Proof. reflexivity. Qed.

Lemma set_server_port_run p ev st :
  Project.set_server_port p ev st = (Ret tt, with_project id (fun _ => p) st).
Proof. reflexivity. Qed.

Lemma set_server_ip_run ip ev st :
  Project.set_server_ip ip ev st = (Ret tt, with_project (fun _ => ip) id st).
Proof. reflexivity. Qed.

Lemma with_project_more f g evs st :
  with_project f g (more evs st) = more evs (with_project f g st).
Proof. reflexivity. Qed.

Lemma with_fs_more f g evs st :
  with_fs f g (more evs st) = more evs (with_fs f g st).
Proof. reflexivity. Qed.

Lemma with_counters_more r e f evs st :
  with_counters r e f (more evs st) = more evs (with_counters r e f st).
Proof. reflexivity. Qed.

Lemma write_run p f ev st :
  Path.write p f ev st = (Ret tt, more [WriteText p] (with_fs <[p := f]> id st)).
Proof. reflexivity. Qed.

(** Symbolic execution of straight-line code. *)
Ltac run :=
  repeat (first
    [ rewrite bind_run | rewrite emit_run | rewrite info_run
    | rewrite warning_run | rewrite error_run | rewrite system_run
    | rewrite mret_run | rewrite sys_exit_run | rewrite raise_run
    | rewrite pass_run | rewrite ask_run | rewrite get_run
    | rewrite set_server_port_run | rewrite set_server_ip_run
    | rewrite write_run | rewrite with_project_more | rewrite with_fs_more
    | rewrite with_counters_more | rewrite more_more ];
    cbn beta iota).

Lemma gen_run (ev : env) (st : state) :
  User.gen ev st =
    (Ret (User.of_random (map (entropy ev) (seq (entropy_pos st) 16))
                         (map (entropy ev) (seq (entropy_pos st + 16) 32))),
     with_counters id (fun e => (e + 48)%nat) id
       (with_trace (fun tr => tr ++ [Urandom 16; Urandom 32]) st)).
Proof.
  unfold User.gen, mbind, M_bind, Host.bind, mret, M_ret, Host.ret, urandom.
  cbn -[seq]. f_equal. destruct st; unfold with_counters, with_trace; cbn -[seq].
  f_equal; [by rewrite <- app_assoc | lia].
Qed.

Lemma exists_run p ev st :
  Path.exists_ p ev st =
    (Ret (bool_decide (is_Some (files st !! p)) || bool_decide (p ∈ dirs st)), st).
Proof. reflexivity. Qed.

Lemma is_dir_run p ev st :
  Path.is_dir p ev st = (Ret (bool_decide (p ∈ dirs st)), st).
Proof. reflexivity. Qed.

Lemma listdir_run p ev st :
  exists names, Path.listdir p ev st = (Ret names, st).
Proof. eexists. reflexivity. Qed.

Lemma rmtree_run p ev st :
  exists st', Path.rmtree p ev st = (Ret tt, st') /\
              trace st' = trace st ++ [Rmtree p].
Proof. eexists. split; reflexivity. Qed.

Lemma is_port_in_used_run (n : Z) (p : proto) ev st :
  Project.is_port_in_used n p ev st =
    (if (n <? 0) || (65535 <? n) then Raise OverflowError
     else if bindable ev p n then Ret false else Ret true,
     more [Probe p n] st).
Proof.
  unfold Project.is_port_in_used. run.
  destruct ((n <? 0) || (65535 <? n)); [reflexivity|].
  destruct (bindable ev p n); reflexivity.
Qed.

Lemma to_json_run sc sp ev st :
  ServerConfig.to_json sc sp ev st =
    (Ret tt,
     more [WriteText sp; Log "INFO" ("save_path=" +:+ sp)]
       (with_fs <[sp := Json (Py.VDict (ServerConfig.to_dict sc))]> id st)).
Proof.
  unfold ServerConfig.to_json. by run.
Qed.

Lemma popen_certonly_run d ev st stderr issued :
  certbot ev d = Exited stderr issued ->
  exists st', CertBot.popen_certonly d ev st = (Ret stderr, st') /\
              trace st' = trace st ++ [Popen (CertBot.certonly_argv d)].
Proof.
  intros H. unfold CertBot.popen_certonly. run. rewrite H.
  destruct issued; eexists; split; reflexivity.
Qed.

(** ** What a run can change *)

Lemma forallb_one (P : event -> bool) (e : event) :
  forallb P [e] = true -> P e = true.
Proof. simpl. by intros [H _]%andb_prop. Qed.

Lemma forallb_mono (P Q : event -> bool) (l : list event) :
  (forall e, P e = true -> Q e = true) -> forallb P l = true -> forallb Q l = true.
Proof. rewrite !forallb_forall. auto. Qed.

Lemma count_zero (P Q : event -> bool) (l : list event) :
  (forall e, Q e = true -> P e = false) -> forallb Q l = true -> count P l = 0%nat.
Proof.
  intros H. unfold count. induction l as [|e l IH]; simpl; [done|].
  intros [He Hl]%andb_prop. rewrite (H e He). auto.
Qed.

Lemma existsb_false_of_forallb (P Q : event -> bool) (l : list event) :
  (forall e, Q e = true -> P e = false) -> forallb Q l = true -> existsb P l = false.
Proof.
  intros H. induction l as [|e l IH]; simpl; [done|].
  intros [He Hl]%andb_prop. rewrite (H e He). auto.
Qed.

Lemma follows_preorder P : PreOrder (follows P).
Proof.
  split.
  - intros st. exists []. rewrite app_nil_r. auto.
  - intros s1 s2 s3 (e1 & T1 & P1 & A1 & B1 & C1) (e2 & T2 & P2 & A2 & B2 & C2).
    exists (e1 ++ e2). rewrite T2, T1, app_assoc, !forallb_app.
    repeat split.
    + by rewrite P1, P2.
    + intros [H1 H2]%andb_prop. rewrite A2, A1; auto.
    + intros [H1 H2]%andb_prop. rewrite B2, B1; auto.
    + intros path. rewrite forallb_app. intros [H1 H2]%andb_prop.
      rewrite C2, C1; auto.
Qed.

#[global] Existing Instance follows_preorder.

Lemma follows_mono (P Q : event -> bool) st st' :
  (forall e, P e = true -> Q e = true) -> follows P st st' -> follows Q st st'.
Proof.
  intros H (evs & T & HP & rest). exists evs. repeat split; try apply rest; auto.
  rewrite forallb_forall in *. auto.
Qed.

Lemma follows_trans_mono (P1 P2 Q : event -> bool) s1 s2 s3 :
  (forall e, P1 e = true -> Q e = true) ->
  (forall e, P2 e = true -> Q e = true) ->
  follows P1 s1 s2 -> follows P2 s2 s3 -> follows Q s1 s3.
Proof.
  intros H1 H2 F1 F2. transitivity s2.
  - eapply follows_mono; [apply H1 | exact F1].
  - eapply follows_mono; [apply H2 | exact F2].
Qed.

(** After events that are only lookups and messages, the files, the
    directories and the entropy stream are where they were. *)
Lemma follows_lookup_frame st st' :
  follows is_lookup st st' ->
  files st' = files st /\ dirs st' = dirs st /\ entropy_pos st' = entropy_pos st.
Proof.
  intros (evs & T & HP & HE & HD & HF). repeat split.
  - apply map_eq. intros path. apply HF.
    eapply forallb_mono; [|exact HP]. by intros [].
  - apply HD. eapply forallb_mono; [|exact HP]. by intros [].
  - apply HE. eapply forallb_mono; [|exact HP]. by intros [].
Qed.

Lemma lookup_not_certificate_step e :
  is_lookup e = true -> negb (is_certificate_step e) = true.
Proof. by destruct e. Qed.

Section Steps.

Context (P : event -> bool).

Local Abbreviation R := (follows P).

Lemma steps_ret {A} (a : A) : steps R (mret a).
Proof. intros ev st. reflexivity. Qed.

Lemma steps_pass : steps R pass.
Proof. intros ev st. reflexivity. Qed.

Lemma steps_raise {A} (e : exn) : steps R (@raise A e).
Proof. intros ev st. reflexivity. Qed.

Lemma steps_sys_exit {A} : steps R (@sys_exit A).
Proof. intros ev st. reflexivity. Qed.

Lemma steps_replaced {A} : steps R (@replaced A).
Proof. intros ev st. reflexivity. Qed.

Lemma steps_get : steps R get.
Proof. intros ev st. reflexivity. Qed.

Lemma steps_ask : steps R ask.
Proof. intros ev st. reflexivity. Qed.

Lemma steps_bind {A B} (m : M A) (k : A -> M B) :
  steps R m -> (forall a, steps R (k a)) -> steps R (m ≫= k).
Proof.
  intros Hm Hk ev st. unfold mbind, M_bind, Host.bind.
  specialize (Hm ev st). destruct (m ev st) as [[a|e|] st1]; simpl in *; auto.
  etrans; [exact Hm | apply Hk].
Qed.

End Steps.

Lemma steps_emit P (e : event) : P e = true -> steps (follows P) (emit e).
Proof.
  intros HP ev st. exists [e]. simpl. rewrite HP. auto.
Qed.

Lemma steps_project P (f : string -> string) (g : Z -> Z) :
  steps (follows P) (modify (with_project f g)).
Proof. intros ev st. exists []. simpl. rewrite app_nil_r. auto. Qed.

Lemma steps_draw P (n : nat) : steps (follows P) (draw n).
Proof. intros ev st. exists []. simpl. rewrite app_nil_r. auto. Qed.

Lemma steps_urandom P (n : nat) :
  P (Urandom n) = true -> steps (follows P) (urandom n).
Proof.
  intros HP ev st. exists [Urandom n]. simpl. rewrite HP.
  repeat split; auto; discriminate.
Qed.

Lemma steps_write P (p : string) (f : file) :
  P (WriteText p) = true -> steps (follows P) (Path.write p f).
Proof.
  intros HP ev st. exists [WriteText p]. simpl. rewrite HP.
  repeat split; auto.
  intros path [H _]%andb_prop. apply lookup_insert_ne.
  intros ->. by rewrite String.eqb_refl in H.
Qed.

Lemma steps_makedirs P (p : string) :
  P (Makedirs p) = true -> steps (follows P) (Path.makedirs p).
Proof.
  intros HP ev st. exists [Makedirs p]. simpl. rewrite HP.
  repeat split; auto; discriminate.
Qed.

Lemma steps_rmtree P (p : string) :
  P (Rmtree p) = true -> steps (follows P) (Path.rmtree p).
Proof.
  intros HP ev st. exists [Rmtree p]. simpl. rewrite HP.
  repeat split; auto; try discriminate.
  intros path [H _]%andb_prop.
  destruct (files st !! path) as [f|] eqn:E.
  - apply map_lookup_filter_Some. split; [done|]. simpl.
    by destruct (Path.inside p path).
  - apply map_lookup_filter_None. left. done.
Qed.

Lemma certonly_is_issuance (d : string) :
  is_issuance (Popen (CertBot.certonly_argv d)) = true.
Proof. reflexivity. Qed.

Lemma fullchain_in_live (d : string) :
  Py.startswith (Certificate.live +:+ "/") (Certificate.fullchain d) = true.
Proof. reflexivity. Qed.

Lemma privkey_in_live (d : string) :
  Py.startswith (Certificate.live +:+ "/") (Certificate.privkey d) = true.
Proof. reflexivity. Qed.

Lemma steps_popen_certonly P (d : string) :
  P (Popen (CertBot.certonly_argv d)) = true ->
  steps (follows P) (CertBot.popen_certonly d).
Proof.
  intros HP ev st. unfold CertBot.popen_certonly.
  unfold mbind, M_bind, Host.bind, ask, emit, modify, raise, pass, mret, M_ret, Host.ret.
  exists [Popen (CertBot.certonly_argv d)].
  destruct (certbot ev d) as [|stderr [|]];
    cbn [snd trace files dirs entropy_pos with_trace with_fs];
    (split; [done|]); (split; [by cbn [forallb]; rewrite HP|]);
    (split; [done|]); (split; [discriminate|]); try done.
  intros path H%forallb_one. unfold keeps_file in H.
  rewrite certonly_is_issuance, andb_true_r in H.
  apply negb_true_iff in H.
  rewrite !lookup_insert_ne; [done| |].
  - intros E. rewrite <- E, privkey_in_live in H. discriminate.
  - intros E. rewrite <- E, fullchain_in_live in H. discriminate.
Qed.

Lemma steps_urlretrieve P (url dest : string) :
  P (Urlretrieve url dest) = true ->
  steps (follows P) (Service.urlretrieve url dest).
Proof.
  intros HP ev st. unfold Service.urlretrieve.
  unfold mbind, M_bind, Host.bind, ask, get, emit, modify, mret, M_ret, Host.ret.
  exists [Urlretrieve url dest].
  destruct (fetch_ok ev (fetch_calls st)); simpl; rewrite HP;
    repeat split; auto.
  intros path [H _]%andb_prop. apply lookup_insert_ne.
  intros ->. by rewrite String.eqb_refl in H.
Qed.

(** One step of a proof that a monadic term is [steps R]. *)
Ltac step :=
  lazymatch goal with
  | |- steps _ (_ ≫= _) => apply steps_bind; [| intros ?]
  | |- steps _ (mret _) => apply steps_ret
  | |- steps _ pass => apply steps_pass
  | |- steps _ sys_exit => apply steps_sys_exit
  | |- steps _ (raise _) => apply steps_raise
  | |- steps _ replaced => apply steps_replaced
  | |- steps _ get => apply steps_get
  | |- steps _ ask => apply steps_ask
  | |- steps _ (emit _) => apply steps_emit
  | |- steps _ (info _) => apply steps_emit
  | |- steps _ (warning _) => apply steps_emit
  | |- steps _ (error _) => apply steps_emit
  | |- steps _ (system _) => apply steps_emit
  | |- steps _ (draw _) => apply steps_draw
  | |- steps _ (urandom _) => apply steps_urandom
  | |- steps _ (modify (with_project _ _)) => apply steps_project
  | |- steps _ (Project.set_server_port _) => apply steps_project
  | |- steps _ (Project.set_server_ip _) => apply steps_project
  | |- steps _ (Path.write _ _) => apply steps_write
  | |- steps _ (Path.makedirs _) => apply steps_makedirs
  | |- steps _ (Path.rmtree _) => apply steps_rmtree
  | |- steps _ (CertBot.popen_certonly _) => apply steps_popen_certonly
  | |- steps _ (Service.urlretrieve _ _) => apply steps_urlretrieve
  | |- steps _ (match ?x with _ => _ end) => destruct x
  end.

Create HintDb steps.

Ltac run_steps :=
  repeat first [ step | solve [ eauto with steps ] | solve [ intros; reflexivity ] ].

Section Quiet.

Context (P : event -> bool).

Hypothesis P_log : forall l m, P (Log l m) = true.
Hypothesis P_print : forall w, P (Print w) = true.
Hypothesis P_input : P Input = true.
Hypothesis P_probe : forall p n, P (Probe p n) = true.
Hypothesis P_getaddrinfo : forall d, P (Getaddrinfo d) = true.
Hypothesis P_urlopen : forall u, P (Urlopen u) = true.
Hypothesis P_urandom : forall n, P (Urandom n) = true.
Hypothesis P_apt_update : P (System CertBot.apt_update) = true.
Hypothesis P_apt_install : P (System CertBot.apt_install) = true.
Hypothesis P_stop_nginx : P (System CertBot.stop_nginx) = true.
Hypothesis P_kill : P (System CertBot.kill_port_80) = true.
Hypothesis P_revive : P (System CertBot.revive_port_80) = true.
Hypothesis P_timer : P (System CertBot.enable_timer) = true.
Hypothesis P_reload : P (System "systemctl daemon-reload") = true.
Hypothesis P_enable :
  forall n, P (System ("systemctl enable --now " +:+ n)) = true.
Hypothesis P_stop : forall n, P (System ("systemctl stop " +:+ n)) = true.
Hypothesis P_chmod : forall f, P (System ("chmod +x " +:+ f)) = true.
Hypothesis P_sleep : P Sleep = true.
Hypothesis P_execl : forall a, P (Execl a) = true.
Hypothesis P_makedirs : forall p, P (Makedirs p) = true.
Hypothesis P_purge : forall k, P (Rmtree (Path.joinpath Certificate.live k)) = true.
Hypothesis P_certonly : forall d, P (Popen (CertBot.certonly_argv d)) = true.
Hypothesis P_status :
  forall s, P (Popen (Py.words ("systemctl is-active " +:+ s))) = true.
Hypothesis P_fetch : forall u, P (Urlretrieve u Project.executable) = true.
Hypothesis P_bashrc : P (WriteText Project.path_bash_aliases) = true.
Hypothesis P_unit : P (WriteText Project.service) = true.
Hypothesis P_server_config : P (WriteText Project.server_config) = true.
Hypothesis P_nekoray : P (WriteText Project.client_nekoray_config) = true.
Hypothesis P_meta : P (WriteText Project.client_meta_config) = true.
Hypothesis P_singbox : P (WriteText Project.client_singbox_config) = true.

Local Hint Resolve P_log P_print P_input P_probe P_getaddrinfo P_urlopen
  P_urandom P_apt_update P_apt_install P_stop_nginx P_kill P_revive P_timer
  P_reload P_enable P_stop P_chmod P_sleep P_execl P_makedirs P_purge P_certonly P_status
  P_fetch P_bashrc P_unit P_server_config P_nekoray P_meta P_singbox : steps.

Lemma exists_steps p : steps (follows P) (Path.exists_ p).
Proof. unfold Path.exists_. run_steps. Qed.

Lemma is_dir_steps p : steps (follows P) (Path.is_dir p).
Proof. unfold Path.is_dir. run_steps. Qed.

Lemma listdir_steps p : steps (follows P) (Path.listdir p).
Proof. unfold Path.listdir. run_steps. Qed.

Lemma read_text_steps p : steps (follows P) (Path.read_text p).
Proof. unfold Path.read_text. run_steps. Qed.

Local Hint Resolve exists_steps is_dir_steps listdir_steps read_text_steps : steps.

Lemma is_port_in_used_steps n p : steps (follows P) (Project.is_port_in_used n p).
Proof. unfold Project.is_port_in_used. run_steps. Qed.

Local Hint Resolve is_port_in_used_steps : steps.

Lemma first_free_steps l : steps (follows P) (Project.first_free l).
Proof. induction l as [|p l IH]; simpl; run_steps. Qed.

Lemma shuffle_from_steps {A} i (x : list A) :
  steps (follows P) (Project.shuffle_from i x).
Proof. revert x. induction i as [|i IH]; intros x; simpl; run_steps. Qed.

Local Hint Resolve first_free_steps shuffle_from_steps : steps.

Lemma server_port_steps : steps (follows P) Project.server_port.
Proof. unfold Project.server_port, Project.shuffle. run_steps. Qed.

Lemma set_alias_steps : steps (follows P) Project.set_alias.
Proof. unfold Project.set_alias. run_steps. Qed.

Lemma project_init_steps : steps (follows P) Project.init.
Proof. unfold Project.init. run_steps. Qed.

Lemma reset_shell_steps {A} : steps (follows P) (@Project.reset_shell A).
Proof. unfold Project.reset_shell. run_steps. Qed.

Local Hint Resolve server_port_steps set_alias_steps project_init_steps
  reset_shell_steps : steps.

Lemma purge_steps self names : steps (follows P) (CertBot.purge self names).
Proof. induction names as [|k names IH]; simpl; run_steps. Qed.

Local Hint Resolve purge_steps : steps.

Lemma cert_pre_hook_steps self : steps (follows P) (CertBot._cert_pre_hook self).
Proof. unfold CertBot._cert_pre_hook. run_steps. Qed.

Lemma cert_run_steps self : steps (follows P) (CertBot._run self).
Proof. unfold CertBot._run. run_steps. Qed.

Lemma cert_post_hook_steps self : steps (follows P) (CertBot._cert_post_hook self).
Proof. unfold CertBot._cert_post_hook. run_steps. Qed.

Local Hint Resolve cert_pre_hook_steps cert_run_steps cert_post_hook_steps : steps.

Lemma certbot_run_steps self : steps (follows P) (CertBot.run self).
Proof. unfold CertBot.run. run_steps. Qed.

Lemma build_from_template_steps path template :
  P (WriteText path) = true ->
  steps (follows P) (Service.build_from_template path template).
Proof. intros H. unfold Service.build_from_template. run_steps. Qed.

Lemma service_start_steps self : steps (follows P) (Service.start self).
Proof. unfold Service.start. run_steps. Qed.

Lemma service_stop_steps self : steps (follows P) (Service.stop self).
Proof. unfold Service.stop. run_steps. Qed.

Lemma service_status_steps self : steps (follows P) (Service.status self).
Proof. unfold Service.status. run_steps. Qed.

Local Hint Resolve certbot_run_steps build_from_template_steps
  service_start_steps service_stop_steps service_status_steps : steps.

Lemma download_server_steps depth self :
  steps (follows P) (Service.download_server depth self Project.workstation).
Proof. induction depth as [|depth IH]; simpl; run_steps. Qed.

Lemma server_to_json_steps sc :
  steps (follows P) (ServerConfig.to_json sc Project.server_config).
Proof. unfold ServerConfig.to_json. run_steps. Qed.

Local Hint Resolve download_server_steps server_to_json_steps : steps.

Lemma server_ip_steps : steps (follows P) Project.server_ip.
Proof. unfold Project.server_ip. run_steps. Qed.

Local Hint Resolve server_ip_steps : steps.

Lemma gen_clients_steps self addr user sc :
  steps (follows P) (Template.gen_clients self addr user sc).
Proof.
  unfold Template.gen_clients, NekoRayConfig.to_json, ClashMetaConfig.to_yaml,
    SingBoxConfig.to_json.
  run_steps.
Qed.

Lemma parse_steps self params : steps (follows P) (Template.parse self params).
Proof.
  unfold Template.parse, Template.print_nekoray, Template.print_clash_meta,
    Template.print_singbox, Template.missing, NekoRayConfig.from_json,
    NekoRayConfig.serv_peer.
  run_steps.
Qed.

Lemma validate_port_steps port : steps (follows P) (Scaffold._validate_port port).
Proof. unfold Scaffold._validate_port. run_steps. Qed.

Lemma validate_domain_steps domain :
  steps (follows P) (Scaffold._validate_domain domain).
Proof. unfold Scaffold._validate_domain. run_steps. Qed.

Lemma gen_steps : steps (follows P) User.gen.
Proof. unfold User.gen. run_steps. Qed.

End Quiet.

#[global] Hint Resolve exists_steps is_dir_steps listdir_steps read_text_steps
  is_port_in_used_steps first_free_steps shuffle_from_steps server_port_steps
  set_alias_steps project_init_steps reset_shell_steps purge_steps
  cert_pre_hook_steps cert_run_steps cert_post_hook_steps certbot_run_steps
  build_from_template_steps service_start_steps service_stop_steps
  service_status_steps download_server_steps server_to_json_steps
  server_ip_steps gen_clients_steps parse_steps validate_port_steps
  validate_domain_steps gen_steps : steps.

#[global] Hint Extern 1 (_ = true) => (intros; reflexivity) : steps.

(** Running the first action of a bind whose effect is known. *)
Ltac bind_with F :=
  rewrite bind_run;
  lazymatch goal with
  | |- context [match ?m ?ev ?st with _ => _ end] =>
      let H := fresh "F" in
      let E := fresh "E" in
      pose proof (F ev st) as H;
      lazymatch type of H with
      | follows ?P ?s _ => change (follows P s (snd (m ev st))) in H
      end;
      destruct (m ev st) as [[?|?|] ?] eqn:E; cbn [snd] in H
  end.

(** Running the first action of a bind that is [steps (follows P)]. *)
Ltac bind_quiet P :=
  rewrite bind_run;
  lazymatch goal with
  | |- context [match ?m ?ev ?st with _ => _ end] =>
      let S := fresh "S" in
      let H := fresh "F" in
      let E := fresh "E" in
      assert (steps (follows P) m) as S by (unfold P; run_steps);
      pose proof (S ev st) as H; clear S;
      destruct (m ev st) as [[?|?|] ?] eqn:E; cbn [snd] in H; cbn beta iota
  end.

(** Merging what is known about consecutive parts of a run. *)
Ltac merge_follows :=
  repeat lazymatch goal with
  | F1 : follows ?P ?a ?b, F2 : follows ?P ?b ?c |- _ =>
      let F := fresh "F" in
      assert (follows P a c) as F by (etrans; [exact F1 | exact F2]);
      clear F1 F2
  end.

(** ** Port validation *)

Lemma validate_port_run (port : option Z) ev st :
  exists o evs,
    Scaffold._validate_port port ev st = (o, more evs st) /\
    forallb is_lookup evs = true /\
    (o = Ret port \/ o = Raise SystemExit \/ o = Raise OverflowError).
Proof.
  destruct port as [p|]; unfold Scaffold._validate_port.
  2:{ exists (Ret None), []. rewrite more_nil. auto. }
  destruct (p <? 49152).
  { run. eexists _, [_]. split; [reflexivity|]. auto. }
  rewrite bind_run, is_port_in_used_run.
  destruct ((p <? 0) || (65535 <? p)).
  { eexists _, [_]. split; [reflexivity|]. auto. }
  destruct (bindable ev udp p); run.
  - eexists _, [_; _]. split; [reflexivity|]. auto.
  - eexists _, [_; _]. split; [reflexivity|]. auto.
Qed.

(** C8. A requested port of at most 49151 is refused with the range
    message and nothing else happens, not even the probe; above 49151,
    a port whose UDP bind probe succeeds is returned, and one whose
    probe fails is refused with the in-use message. Both refusals end
    the process ([sys.exit]) having made no network call. *)
Theorem validate_port_spec (p : Z) (ev : env) (st : state) :
  (p <= 49151 ->
   Scaffold._validate_port (Some p) ev st =
     (Raise SystemExit, more [Log "ERROR" "scope=[49152, 65535]"] st)) /\
  (49151 < p -> fst (Project.is_port_in_used p udp ev st) = Ret false ->
   Scaffold._validate_port (Some p) ev st =
     (Ret (Some p),
      more [Probe udp p; Log "INFO" ("bound port=" +:+ Py.str_int p)] st)) /\
  (49151 < p -> fst (Project.is_port_in_used p udp ev st) = Ret true ->
   Scaffold._validate_port (Some p) ev st =
     (Raise SystemExit,
      more [Probe udp p; Log "ERROR" ("in use port=" +:+ Py.str_int p)] st)) /\
  (forall o st', Scaffold._validate_port (Some p) ev st = (o, st') ->
   o = Raise SystemExit ->
   exists evs, st' = more evs st /\ count is_network evs = 0%nat).
Proof.
  unfold Scaffold._validate_port. repeat split.
  - intros H. destruct (Z.ltb_spec p 49152); [by run | lia].
  - intros H. rewrite is_port_in_used_run. cbn [fst].
    destruct (Z.ltb_spec p 49152); [lia|].
    rewrite bind_run, is_port_in_used_run.
    destruct ((p <? 0) || (65535 <? p)); [discriminate|].
    destruct (bindable ev udp p); [by run | discriminate].
  - intros H. rewrite is_port_in_used_run. cbn [fst].
    destruct (Z.ltb_spec p 49152); [lia|].
    rewrite bind_run, is_port_in_used_run.
    destruct ((p <? 0) || (65535 <? p)); [discriminate|].
    destruct (bindable ev udp p); [discriminate | by run].
  - intros o st'. destruct (p <? 49152).
    { run. intros [= <- <-] _. eexists [_]. split; reflexivity. }
    rewrite bind_run, is_port_in_used_run.
    destruct ((p <? 0) || (65535 <? p)).
    { intros [= <- <-]. discriminate. }
    destruct (bindable ev udp p); run.
    + intros [= <- <-]. discriminate.
    + intros [= <- <-] _. eexists [_; _]. split; reflexivity.
Qed.

(** Port 80 is refused; 50000 is free and accepted; 50001 is taken and
    refused. *)
Lemma validate_port_spec_witness :
  fst (Scaffold._validate_port (Some 80) Sample.host Sample.fresh) = Raise SystemExit /\
  fst (Scaffold._validate_port (Some 50000) Sample.host_busy Sample.fresh)
    = Ret (Some 50000) /\
  fst (Scaffold._validate_port (Some 50001) Sample.host_busy Sample.fresh)
    = Raise SystemExit.
Proof.
  split; [|split].
  - destruct (validate_port_spec 80 Sample.host Sample.fresh) as (H & _).
    rewrite H; [reflexivity | lia].
  - destruct (validate_port_spec 50000 Sample.host_busy Sample.fresh) as (_ & H & _).
    rewrite H; [reflexivity | lia | reflexivity].
  - destruct (validate_port_spec 50001 Sample.host_busy Sample.fresh) as (_ & _ & H & _).
    rewrite H; [reflexivity | lia | reflexivity].
Defined.

(** ** The domain check *)

Lemma validate_domain_ret dom ev st d ip st' :
  Scaffold._validate_domain dom ev st = (Ret (d, ip), st') ->
  d = match dom with Some (String c s) => String c s | _ => stdin ev end /\
  resolve ev d = Some ip /\ public_ip ev = Some ip.
Proof.
  unfold Scaffold._validate_domain.
  rewrite bind_run; cbn [ask].
  set (d0 := match dom with Some (String c s) => String c s | _ => stdin ev end).
  assert (exists st0,
    (match dom with
     | Some (String c s) => mret (String c s)
     | _ => emit Input;; mret (stdin ev)
     end : M string) ev st = (Ret d0, st0)) as [st0 E].
  { unfold d0. destruct dom as [[|c s]|]; eexists; reflexivity. }
  rewrite bind_run, E.
  rewrite bind_run. cbn [emit modify].
  destruct (resolve ev d0) as [ip0|] eqn:R; [|discriminate].
  rewrite bind_run. cbn [emit modify].
  destruct (public_ip ev) as [my|] eqn:I; [|discriminate].
  destruct (String.eqb my ip0) eqn:Q; simpl; [|discriminate].
  intros [= <- <- <-]. apply String.eqb_eq in Q. subst. auto.
Qed.

Lemma validate_domain_mismatch dom ev st ip my :
  resolve ev (match dom with Some (String c s) => String c s | _ => stdin ev end)
    = Some ip ->
  public_ip ev = Some my -> my <> ip ->
  exists evs,
    Scaffold._validate_domain dom ev st = (Raise SystemExit, more evs st) /\
    forallb is_lookup evs = true.
Proof.
  intros R I N. unfold Scaffold._validate_domain.
  rewrite bind_run, ask_run; cbn beta iota.
  set (d0 := match dom with Some (String c s) => String c s | _ => stdin ev end) in *.
  assert (exists e0,
    (match dom with
     | Some (String c s) => mret (String c s)
     | _ => emit Input;; mret (stdin ev)
     end : M string) ev st = (Ret d0, more e0 st) /\ forallb is_lookup e0 = true)
    as (e0 & E & L0).
  { unfold d0. destruct dom as [[|c s]|].
    - by exists [Input].
    - exists []. by rewrite more_nil.
    - by exists [Input]. }
  rewrite bind_run, E. cbn beta iota.
  run. rewrite R. run. rewrite I.
  apply String.eqb_neq in N. rewrite N. cbn [negb]. run.
  eexists. split; [reflexivity|].
  rewrite !forallb_app, L0. reflexivity.
Qed.

(** C7. When the address the domain resolves to differs from the public
    address of the host, [install] ends with [sys.exit] (or, for a number
    that is no port, with the [OverflowError] of the probe) and the host
    is as before except for messages, the prompt, the bind probe of a
    requested port and the two lookups: no certificate is requested, no
    port is stored in the project, no file or directory is touched. *)
Theorem install_aborts_on_ip_mismatch (params : Template.params) (ev : env)
    (st : state) (ip my : string) :
  resolve ev (domain_of ev params) = Some ip ->
  public_ip ev = Some my ->
  my <> ip ->
  exists e evs,
    Scaffold.install params ev st = (Raise e, more evs st) /\
    (e = SystemExit \/ e = OverflowError) /\
    forallb is_lookup evs = true /\
    count is_issuance evs = 0%nat /\
    files (more evs st) = files st /\
    dirs (more evs st) = dirs st /\
    _server_port (more evs st) = _server_port st.
Proof.
  intros R I N. unfold Scaffold.install. rewrite bind_run.
  destruct (validate_port_run (Template.port params) ev st)
    as (o & e1 & E1 & L1 & [-> | [-> | ->]]); rewrite E1; cbn beta iota.
  - rewrite bind_run.
    destruct (validate_domain_mismatch (Template.domain params) ev (more e1 st)
                ip my R I N) as (e2 & E2 & L2).
    rewrite E2, more_more. cbn beta iota.
    assert (forallb is_lookup (e1 ++ e2) = true) as L
      by (rewrite forallb_app, L1, L2; reflexivity).
    exists SystemExit, (e1 ++ e2). repeat split; auto.
    eapply count_zero; [|exact L]. by intros [].
  - exists SystemExit, e1. repeat split; auto.
    eapply count_zero; [|exact L1]. by intros [].
  - exists OverflowError, e1. repeat split; auto.
    eapply count_zero; [|exact L1]. by intros [].
Qed.

(** Scenario: the domain resolves to 203.0.113.7 and the host is seen
    as 198.51.100.9. *)
Lemma install_aborts_on_ip_mismatch_witness :
  exists e evs,
    Scaffold.install Sample.params Sample.host_elsewhere Sample.fresh
      = (Raise e, more evs Sample.fresh) /\
    count is_issuance evs = 0%nat.
Proof.
  destruct (install_aborts_on_ip_mismatch Sample.params Sample.host_elsewhere
              Sample.fresh "203.0.113.7" "198.51.100.9")
    as (e & evs & E & _ & _ & C & _).
  - reflexivity.
  - reflexivity.
  - discriminate.
  - exists e, evs. auto.
Defined.

(** ** Automatic port allocation *)

Lemma elem_of_range (lo hi p : Z) : p ∈ Py.range lo hi <-> lo <= p < hi.
Proof. unfold Py.range. rewrite elem_of_seqZ. lia. Qed.

Lemma swap_perm {A} (i j : nat) (x : list A) : Project.swap i j x ≡ₚ x.
Proof.
  unfold Project.swap.
  destruct (x !! i) as [a|] eqn:Hi; [|done].
  destruct (x !! j) as [b|] eqn:Hj; [|done].
  by apply Permutation_insert_swap.
Qed.

(** [random.shuffle] returns a rearrangement of its argument and only
    advances the generator. *)
Lemma shuffle_from_run {A} (i : nat) (x : list A) ev st :
  exists y n,
    Project.shuffle_from i x ev st = (Ret y, with_counters (fun r => (r + n)%nat) id id st) /\
    y ≡ₚ x.
Proof.
  revert x st. induction i as [|i IH]; intros x st; simpl.
  - exists x, 0%nat. split; [|done]. destruct st; unfold with_counters; simpl.
    by rewrite Nat.add_0_r.
  - rewrite bind_run. unfold draw at 1. cbn beta iota.
    edestruct IH as (y & n & -> & Hy).
    exists y, (S n). split.
    + f_equal. destruct st; unfold with_counters; simpl. f_equal. lia.
    + rewrite Hy. apply swap_perm.
Qed.

(** The loop stores the first candidate that can be bound, and stores
    nothing when there is none. *)
Lemma first_free_run (l : list Z) ev st :
  (forall p, p ∈ l -> 0 <= p <= 65535) ->
  exists evs,
    forallb is_lookup evs = true /\
    ((exists p, p ∈ l /\ bindable ev udp p = true /\
        Project.first_free l ev st =
          (Ret tt, more evs (with_project id (fun _ => p) st))) \/
     ((forall p, p ∈ l -> bindable ev udp p = false) /\
        Project.first_free l ev st = (Ret tt, more evs st))).
Proof.
  revert st. induction l as [|p l IH]; intros st Hl; simpl.
  - exists []. split; [done|]. right. split.
    + intros p Hp. by apply elem_of_nil in Hp.
    + by rewrite more_nil.
  - rewrite bind_run, is_port_in_used_run.
    assert (0 <= p <= 65535) as Hp by (apply Hl; left).
    destruct (Z.ltb_spec p 0); [lia|]. destruct (Z.ltb_spec 65535 p); [lia|].
    cbn [orb].
    destruct (bindable ev udp p) eqn:B; cbn beta iota; cbn [negb].
    + exists [Probe udp p; Log "INFO" ("port=" +:+ Py.str_int p)].
      split; [done|]. left. exists p. split; [left|]. split; [done|].
      by run.
    + destruct (IH (more [Probe udp p] st)) as (evs & L & [Hc | Hc]).
      { intros q Hq. apply Hl. by right. }
      * destruct Hc as (q & Hq & Bq & ->).
        exists (Probe udp p :: evs). split; [done|]. left.
        exists q. split; [by right|]. split; [done|].
        by rewrite with_project_more, more_more.
      * destruct Hc as (Hall & ->).
        exists (Probe udp p :: evs). split; [done|]. right. split.
        -- intros q [->|Hq]%elem_of_cons; auto.
        -- by rewrite more_more.
Qed.

Lemma server_port_cached ev st :
  0 <= _server_port st ->
  Project.server_port ev st = (Ret (_server_port st), st).
Proof.
  intros H. unfold Project.server_port. rewrite bind_run, get_run. cbn beta iota.
  destruct (Z.ltb_spec (_server_port st) 0); [lia|]. by run.
Qed.

Lemma server_port_alloc ev st :
  _server_port st < 0 ->
  exists evs n,
    forallb is_lookup evs = true /\
    let st1 := more evs (with_counters (fun r => (r + n)%nat) id id st) in
    ((exists p, 49152 <= p < 59152 /\ bindable ev udp p = true /\
        Project.server_port ev st = (Ret p, with_project id (fun _ => p) st1)) \/
     ((forall p, 49152 <= p < 59152 -> bindable ev udp p = false) /\
        Project.server_port ev st = (Ret (_server_port st), st1))).
Proof.
  intros H. unfold Project.server_port. rewrite bind_run, get_run. cbn beta iota.
  destruct (Z.ltb_spec (_server_port st) 0); [|lia].
  unfold Project.shuffle.
  destruct (shuffle_from_run (length (Py.range 49152 59152) - 1)
              (Py.range 49152 59152) ev st) as (y & n & E & Hy).
  rewrite !bind_run, E. cbn beta iota.
  set (st0 := with_counters (fun r => (r + n)%nat) id id st).
  destruct (first_free_run y ev st0) as (evs & L & [Hc | Hc]).
  { intros p Hp. rewrite Hy in Hp. apply elem_of_range in Hp. lia. }
  - destruct Hc as (p & Hp & B & ->). cbn beta iota.
    exists evs, n. split; [done|]. left. exists p.
    rewrite Hy in Hp. apply elem_of_range in Hp. split; [done|]. split; [done|].
    by run.
  - destruct Hc as (Hall & ->). cbn beta iota.
    exists evs, n. split; [done|]. right. split.
    + intros p Hp. apply Hall. rewrite Hy. by apply elem_of_range.
    + by run.
Qed.

(** C3, the claim fails: with only port 59151 free the accessor returns
    59151, which is not below 59151; with no port free it returns the
    initial -1 and raises nothing. *)
Lemma server_port_out_of_claimed_range :
  fst (Project.server_port Sample.host_last Sample.fresh) = Ret 59151 /\
  ~ (49152 <= 59151 < 59151) /\
  fst (Project.server_port Sample.host_full Sample.fresh) = Ret (-1).
Proof.
  split; [|split; [lia|]].
  - destruct (server_port_alloc Sample.host_last Sample.fresh) as (evs & n & _ & [Hc | Hc]).
    { cbn. lia. }
    + destruct Hc as (p & Hp & B & ->). cbn in B.
      apply Z.eqb_eq in B. by subst p.
    + destruct Hc as (Hall & _). specialize (Hall 59151). cbn in Hall.
      discriminate Hall. lia.
  - destruct (server_port_alloc Sample.host_full Sample.fresh) as (evs & n & _ & [Hc | Hc]).
    { cbn. lia. }
    + destruct Hc as (p & _ & B & _). discriminate B.
    + destruct Hc as (_ & ->). reflexivity.
Qed.

(** C3, amended. When the project has no port yet and some port of
    49152..59151 (the upper end included) passes the UDP bind probe, the
    [server_port] accessor returns such a port, stores it, and returns
    the same port without probing again from then on. *)
Theorem server_port_allocates (ev : env) (st : state) :
  _server_port st < 0 ->
  (exists q, 49152 <= q < 59152 /\ bindable ev udp q = true) ->
  exists p st',
    Project.server_port ev st = (Ret p, st') /\
    49152 <= p < 59152 /\
    bindable ev udp p = true /\
    fst (Project.is_port_in_used p udp ev st') = Ret false /\
    _server_port st' = p /\
    Project.server_port ev st' = (Ret p, st').
Proof.
  intros H (q & Hq & Bq).
  destruct (server_port_alloc ev st H) as (evs & n & L & [Hc | Hc]).
  - destruct Hc as (p & Hp & B & E). eexists p, _. split; [exact E|].
    split; [done|]. split; [done|]. split.
    { rewrite is_port_in_used_run. cbn [fst].
      destruct (Z.ltb_spec p 0); [lia|]. destruct (Z.ltb_spec 65535 p); [lia|].
      cbn [orb]. by rewrite B. }
    split; [reflexivity|].
    apply server_port_cached. cbn. lia.
  - destruct Hc as (Hall & _). rewrite (Hall q Hq) in Bq. discriminate.
Qed.

(** On the sample host a fresh process gets a port of the range. *)
Lemma server_port_allocates_witness :
  exists p st',
    Project.server_port Sample.host Sample.fresh = (Ret p, st') /\
    49152 <= p < 59152 /\ bindable Sample.host udp p = true.
Proof.
  destruct (server_port_allocates Sample.host Sample.fresh) as (p & st' & E & R & B & _).
  - reflexivity.
  - exists 49152. split; [lia | reflexivity].
  - exists p, st'. auto.
Defined.

(** ** The certificate hooks *)

Lemma purge_run self names ev st :
  exists st' evs,
    CertBot.purge self names ev st = (Ret tt, st') /\
    trace st' = trace st ++ evs /\ forallb is_rmtree evs = true.
Proof.
  revert st. induction names as [|k names IH]; intros st; simpl.
  - exists st, []. by rewrite app_nil_r.
  - rewrite bind_run, exists_run. cbn beta iota.
    rewrite bind_run, is_dir_run. cbn beta iota. rewrite bind_run.
    match goal with |- context [if ?c then _ else _] => destruct c end.
    + destruct (rmtree_run (Path.joinpath Certificate.live k) ev st)
        as (st1 & -> & T1). cbn beta iota.
      destruct (IH st1) as (st2 & evs & -> & T2 & L).
      exists st2, (Rmtree (Path.joinpath Certificate.live k) :: evs).
      split; [done|]. split; [|done]. by rewrite T2, T1, <- app_assoc.
    + rewrite pass_run. cbn beta iota.
      destruct (IH st) as (st2 & evs & -> & T2 & L). by exists st2, evs.
Qed.

Lemma cert_pre_hook_run self ev st :
  exists st' evs,
    CertBot._cert_pre_hook self ev st =
      (Ret {| CertBot._domain := CertBot._domain self;
              CertBot._should_revive_port_80 :=
                if bindable ev tcp 80 then CertBot._should_revive_port_80 self
                else true;
              CertBot._is_success := CertBot._is_success self |}, st') /\
    trace st' = trace st ++ evs /\
    count (is_system CertBot.revive_port_80) evs = 0%nat /\
    count (is_system CertBot.enable_timer) evs = 0%nat /\
    count is_issuance evs = 0%nat /\
    count (is_system CertBot.stop_nginx) evs
      = (if bindable ev tcp 80 then 0 else 1)%nat.
Proof.
  unfold CertBot._cert_pre_hook. rewrite bind_run, exists_run. cbn beta iota.
  assert (exists st0 e0,
    ((if (bool_decide (is_Some (files st !! Certificate.live))
          || bool_decide (Certificate.live ∈ dirs st) : bool)
      then
        info "remove stale certificates";;
        names ← Path.listdir Certificate.live;
        CertBot.purge self names
      else pass) : M unit) ev st = (Ret tt, st0) /\
    trace st0 = trace st ++ e0 /\
    forallb (fun e => is_rmtree e || is_lookup e) e0 = true) as (st0 & e0 & E & T & L).
  { match goal with |- context [if ?c then _ else _] => destruct c end.
    - rewrite bind_run, info_run. cbn beta iota.
      rewrite bind_run.
      destruct (listdir_run Certificate.live ev
                  (more [Log "INFO" "remove stale certificates"] st))
        as (names & ->). cbn beta iota.
      destruct (purge_run self names ev
                  (more [Log "INFO" "remove stale certificates"] st))
        as (st1 & evs & -> & T1 & L1).
      exists st1, (Log "INFO" "remove stale certificates" :: evs).
      split; [done|]. split.
      + rewrite T1. simpl. by rewrite <- app_assoc.
      + simpl. eapply forallb_mono; [|exact L1]. intros e ->. done.
    - exists st, []. by rewrite app_nil_r. }
  rewrite bind_run, E. cbn beta iota.
  assert (forall P, (forall e, is_rmtree e || is_lookup e = true -> P e = false) ->
            count P e0 = 0%nat) as C0.
  { intros P HP. eapply count_zero; [|exact L]. exact HP. }
  run. rewrite is_port_in_used_run.
  change ((80 <? 0) || (65535 <? 80)) with false. cbn iota.
  destruct (bindable ev tcp 80); cbn iota; run.
  - destruct self. eexists _, (e0 ++ _). split; [reflexivity|].
    split; [cbn; by rewrite T, <- app_assoc|].
    unfold count in *. rewrite !List.filter_app, !length_app.
    rewrite !(C0 _); try (by intros []). done.
  - eexists _, (e0 ++ _). split; [reflexivity|].
    split; [cbn; by rewrite T, <- app_assoc|].
    unfold count in *. rewrite !List.filter_app, !length_app.
    rewrite !(C0 _); try (by intros []). done.
Qed.

Lemma cert_run_run self ev st stderr issued :
  certbot ev (CertBot._domain self) = Exited stderr issued ->
  exists st' evs,
    CertBot._run self ev st =
      (Ret {| CertBot._domain := CertBot._domain self;
              CertBot._should_revive_port_80 := CertBot._should_revive_port_80 self;
              CertBot._is_success :=
                if rate_limited stderr then false else CertBot._is_success self |},
       st') /\
    trace st' = trace st ++ evs /\
    count (is_system CertBot.revive_port_80) evs = 0%nat /\
    count (is_system CertBot.enable_timer) evs = 0%nat /\
    count (is_system CertBot.stop_nginx) evs = 0%nat /\
    count is_issuance evs = 1%nat.
Proof.
  intros H. unfold CertBot._run. run.
  destruct (popen_certonly_run (CertBot._domain self) ev
              (more [Log "INFO" "requesting"] st) stderr issued H) as (st1 & -> & T).
  cbn beta iota. fold (rate_limited stderr).
  destruct (rate_limited stderr); run.
  - eexists _, [_; _; _]. split; [reflexivity|]. cbn. rewrite T. cbn.
    rewrite <- !app_assoc. done.
  - destruct self. eexists _, [_; _]. split; [reflexivity|]. rewrite T. cbn.
    rewrite <- !app_assoc. done.
Qed.

Lemma cert_post_hook_run self ev st :
  exists evs,
    CertBot._cert_post_hook self ev st =
      (if CertBot._is_success self
       then Ret {| CertBot._domain := CertBot._domain self;
                   CertBot._should_revive_port_80 := false;
                   CertBot._is_success := true |}
       else Raise SystemExit,
       more evs st) /\
    count (is_system CertBot.revive_port_80) evs =
      (if CertBot._should_revive_port_80 self then 1 else 0)%nat /\
    count (is_system CertBot.enable_timer) evs =
      (if CertBot._is_success self then 1 else 0)%nat /\
    count (is_system CertBot.stop_nginx) evs = 0%nat /\
    count is_issuance evs = 0%nat.
Proof.
  unfold CertBot._cert_post_hook. destruct self as [d [|] [|]]; cbn [CertBot._should_revive_port_80 CertBot._is_success CertBot._domain negb]; run.
  - by eexists [_; _; _].
  - by eexists [_].
  - by eexists [_; _].
  - exists []. by rewrite more_nil.
Qed.

(** C2, the claim fails: when certbot cannot be started, [run] ends with
    the [OSError] of the spawn; nginx was stopped by the pre-hook and is
    not restarted, and the post-hook did not run. *)
Lemma certbot_run_skips_post_hook :
  let r := CertBot.run (CertBot.init "relay.example.com")
             Sample.host_no_certbot Sample.fresh in
  fst r = Raise OSError /\
  count (is_system CertBot.stop_nginx) (trace (snd r)) = 1%nat /\
  count (is_system CertBot.revive_port_80) (trace (snd r)) = 0%nat /\
  count (is_system CertBot.enable_timer) (trace (snd r)) = 0%nat.
Proof. vm_compute. repeat split. Qed.

(** C2, amended. When certbot can be started, [CertBot.run] runs the
    post-hook exactly once, whether the request succeeded or was refused
    for the rate limit: what the pre-hook stopped on port 80 is restarted
    once, and nothing is restarted when nothing was stopped; after a
    refusal the process then exits, otherwise the renewal timer is
    enabled once. *)
Theorem certbot_run_post_hook (domain : string) (ev : env) (st : state)
    (stderr : string) (issued : bool) :
  certbot ev domain = Exited stderr issued ->
  let r := CertBot.run (CertBot.init domain) ev st in
  exists evs,
    trace (snd r) = trace st ++ evs /\
    count is_issuance evs = 1%nat /\
    count (is_system CertBot.revive_port_80) evs =
      count (is_system CertBot.stop_nginx) evs /\
    count (is_system CertBot.revive_port_80) evs =
      (if bindable ev tcp 80 then 0 else 1)%nat /\
    count (is_system CertBot.enable_timer) evs =
      (if rate_limited stderr then 0 else 1)%nat /\
    fst r =
      (if rate_limited stderr then Raise SystemExit
       else Ret {| CertBot._domain := domain;
                   CertBot._should_revive_port_80 := false;
                   CertBot._is_success := true |}).
Proof.
  intros H r. subst r. unfold CertBot.run.
  destruct (cert_pre_hook_run (CertBot.init domain) ev st)
    as (st1 & e1 & E1 & T1 & R1 & M1 & I1 & S1).
  rewrite bind_run, E1. cbn beta iota.
  match goal with |- context [CertBot._run ?s] => set (self1 := s) end.
  destruct (cert_run_run self1 ev st1 stderr issued H)
    as (st2 & e2 & E2 & T2 & R2 & M2 & S2 & I2).
  rewrite bind_run, E2. cbn beta iota.
  match goal with |- context [CertBot._cert_post_hook ?s] => set (self2 := s) end.
  destruct (cert_post_hook_run self2 ev st2) as (e3 & E3 & R3 & M3 & S3 & I3).
  rewrite E3. cbn [fst snd].
  exists (e1 ++ e2 ++ e3).
  unfold count in *. rewrite !List.filter_app, !length_app.
  rewrite R1, R2, R3, M1, M2, M3, I1, I2, I3, S1, S2, S3.
  subst self1 self2. cbn [CertBot._should_revive_port_80 CertBot._is_success
    CertBot._domain CertBot.init].
  split. { cbn. by rewrite T2, T1, <- !app_assoc. }
  destruct (bindable ev tcp 80), (rate_limited stderr); done.
Qed.

(** On the sample host, where port 80 is taken and the request succeeds,
    nginx is restarted once and the timer is enabled once. *)
Lemma certbot_run_post_hook_witness :
  certbot Sample.host "relay.example.com" = Exited EmptyString true /\
  exists evs,
    trace (snd (CertBot.run (CertBot.init "relay.example.com") Sample.host Sample.fresh))
      = trace Sample.fresh ++ evs /\
    count (is_system CertBot.revive_port_80) evs = 1%nat /\
    count (is_system CertBot.enable_timer) evs = 1%nat.
Proof.
  split; [reflexivity|].
  destruct (certbot_run_post_hook "relay.example.com" Sample.host Sample.fresh
              EmptyString true eq_refl) as (evs & T & _ & _ & R & M & _).
  exists evs. split; [exact T|]. split; [exact R | exact M].
Defined.

(** ** An existing certificate is kept *)

(** C9. When the full chain of the domain is already on disk, a run of
    [install] skips the certificate step altogether: the trace it adds
    holds no [certbot certonly], and none of the package commands, the
    kill on port 80, the restart of nginx or the renewal timer that
    surround a request, however the run ends. *)
Theorem install_skips_issuance (params : Template.params) (ev : env) (st : state) :
  is_Some (files st !! Certificate.fullchain (domain_of ev params)) ->
  exists evs,
    trace (snd (Scaffold.install params ev st)) = trace st ++ evs /\
    count is_issuance evs = 0%nat /\
    count is_certificate_step evs = 0%nat.
Proof.
  intros Hcert.
  pose (Q := fun e => negb (is_certificate_step e)).
  assert (follows Q st (snd (Scaffold.install params ev st))) as (evs & T & HP & _).
  2:{ exists evs. split; [done|]. split.
      - eapply count_zero; [|exact HP]. intros e. unfold Q, is_certificate_step.
        by destruct (is_issuance e).
      - eapply count_zero; [|exact HP]. intros e. unfold Q.
        by destruct (is_certificate_step e). }
  unfold Scaffold.install.
  bind_with (validate_port_steps is_lookup ltac:(done) ltac:(done) (Template.port params));
    try (eapply follows_mono; [apply lookup_not_certificate_step | exact F]).
  bind_with (validate_domain_steps is_lookup ltac:(done) ltac:(done) ltac:(done)
               ltac:(done) (Template.domain params));
    try (eapply follows_trans_mono;
         [apply lookup_not_certificate_step.. | exact F | exact F0]).
  destruct a0 as [d ip]. apply validate_domain_ret in E0 as (-> & _ & _).
  fold (domain_of ev params) in *.
  assert (follows is_lookup st s0) as F1 by (etrans; eauto).
  bind_with (steps_emit is_lookup (Log "INFO" ("domain=" +:+ domain_of ev params))
               ltac:(done));
    try (eapply follows_trans_mono;
         [apply lookup_not_certificate_step.. | exact F1 | exact F2]).
  assert (follows is_lookup st s1) as F3 by (etrans; eauto).
  rewrite bind_run, exists_run.
  destruct (follows_lookup_frame _ _ F3) as (-> & _ & _).
  rewrite (bool_decide_eq_true_2 _ Hcert). cbn [orb negb].
  eapply follows_trans_mono; [apply lookup_not_certificate_step | | exact F3 |].
  { intros e H; exact H. }
  lazymatch goal with
  | |- follows _ _ (snd (?m ev s1)) => assert (steps (follows Q) m) as St
  end.
  { unfold Q. run_steps. }
  apply St.
Qed.

(** The second install on the sample host finds the bundle of the
    first. *)
Lemma install_skips_issuance_witness :
  is_Some (files Sample.installed
             !! Certificate.fullchain (domain_of Sample.host Sample.params)) /\
  exists evs,
    trace (snd Sample.second_run) = trace Sample.installed ++ evs /\
    count is_issuance evs = 0%nat /\
    count is_certificate_step evs = 0%nat.
Proof.
  assert (is_Some (files Sample.installed
             !! Certificate.fullchain (domain_of Sample.host Sample.params))) as H.
  { vm_compute. eauto. }
  split; [exact H|].
  exact (install_skips_issuance Sample.params Sample.host Sample.installed H).
Defined.


(** ** The credential of an install run *)

Lemma before_config_facts (evs : list event) :
  forallb before_config evs = true ->
  forallb keeps_entropy evs = true /\ count is_urandom evs = 0%nat /\
  existsb (is_write Project.server_config) evs = false.
Proof.
  intros H. split; [|split].
  - eapply forallb_mono; [|exact H]. by intros e [? _]%andb_prop.
  - eapply count_zero; [|exact H]. intros e [? _]%andb_prop. by destruct e.
  - eapply existsb_false_of_forallb; [|exact H].
    intros e [_ ?]%andb_prop. by apply negb_true_iff.
Qed.

Lemma after_config_facts (evs : list event) :
  forallb after_config evs = true ->
  forallb keeps_entropy evs = true /\ count is_urandom evs = 0%nat /\
  forallb (keeps_file Project.server_config) evs = true.
Proof.
  intros H. split; [|split].
  - eapply forallb_mono; [|exact H]. by intros e [? _]%andb_prop.
  - eapply count_zero; [|exact H]. intros e [? _]%andb_prop. by destruct e.
  - eapply forallb_mono; [|exact H]. by intros e [_ ?]%andb_prop.
Qed.

(** The state after [User.gen], and after the server configuration is
    saved. *)
Lemma close_before ev st s :
  follows before_config st s -> credential_of_run ev st s.
Proof.
  intros (evs & T & HP & HE & _). apply before_config_facts in HP as (K & C & W).
  exists evs. split; [done|]. split; [left; auto|]. rewrite W. discriminate.
Qed.

Lemma close_drawn ev st sA s :
  follows before_config st sA ->
  follows before_config
    (with_counters id (fun e => (e + 48)%nat) id
       (with_trace (fun tr => tr ++ [Urandom 16; Urandom 32]) sA)) s ->
  credential_of_run ev st s.
Proof.
  intros (e1 & T1 & HP1 & HE1 & _) (e2 & T2 & HP2 & HE2 & _).
  apply before_config_facts in HP1 as (K1 & C1 & W1).
  apply before_config_facts in HP2 as (K2 & C2 & W2).
  exists (e1 ++ [Urandom 16; Urandom 32] ++ e2). split.
  { rewrite T2. cbn. by rewrite T1, <- !app_assoc. }
  split.
  - right. unfold count in *. rewrite !List.filter_app, !length_app, C1, C2.
    split; [done|]. rewrite HE2, <- HE1; auto.
  - rewrite !existsb_app, W1, W2. discriminate.
Qed.

Lemma next_user_eq ev st s :
  entropy_pos s = entropy_pos st -> next_user ev s = next_user ev st.
Proof. unfold next_user. by intros ->. Qed.

Lemma close_saved ev st sA sB s domain port :
  follows before_config st sA ->
  follows before_config
    (with_counters id (fun e => (e + 48)%nat) id
       (with_trace (fun tr => tr ++ [Urandom 16; Urandom 32]) sA)) sB ->
  let sc := ServerConfig.from_automation (ServerConfig.One (next_user ev sA))
              (Certificate.fullchain domain) (Certificate.privkey domain) port in
  follows after_config
    (more [WriteText Project.server_config;
           Log "INFO" ("save_path=" +:+ Project.server_config)]
       (with_fs <[Project.server_config := Json (Py.VDict (ServerConfig.to_dict sc))]>
          id sB)) s ->
  credential_of_run ev st s.
Proof.
  intros (e1 & T1 & HP1 & HE1 & _) (e2 & T2 & HP2 & HE2 & _) sc
    (e3 & T3 & HP3 & HE3 & _ & HF3).
  apply before_config_facts in HP1 as (K1 & C1 & W1).
  apply before_config_facts in HP2 as (K2 & C2 & W2).
  apply after_config_facts in HP3 as (K3 & C3 & W3).
  exists (e1 ++ [Urandom 16; Urandom 32] ++ e2 ++
          [WriteText Project.server_config;
           Log "INFO" ("save_path=" +:+ Project.server_config)] ++ e3).
  split.
  { rewrite T3. cbn. rewrite T2. cbn. by rewrite T1, <- !app_assoc. }
  split.
  - right. unfold count in *. rewrite !List.filter_app, !length_app, C1, C2, C3.
    split; [done|]. rewrite HE3 by done. cbn. rewrite HE2, <- HE1; auto.
  - intros _. exists domain, port. rewrite HF3 by done. cbn.
    rewrite lookup_insert_eq. subst sc.
    by rewrite (next_user_eq ev st sA) by auto.
Qed.

Lemma install_credential_of_run (params : Template.params) (ev : env) (st : state) :
  credential_of_run ev st (snd (Scaffold.install params ev st)).
Proof.
  unfold Scaffold.install.
  bind_quiet before_config; merge_follows; try (by apply close_before).
  bind_quiet before_config; merge_follows; try (by apply close_before).
  destruct a0 as [domain server_ip].
  do 4 (bind_quiet before_config; merge_follows; try (by apply close_before)).
  rewrite bind_run, gen_run. cbn beta iota.
  do 9 (bind_quiet before_config; merge_follows;
        try (by eapply close_drawn; eassumption)).
  rewrite bind_run, to_json_run. cbn beta iota.
  do 4 (bind_quiet after_config; merge_follows;
        try (by eapply close_saved; eassumption)).
  lazymatch goal with
  | |- credential_of_run _ _ (snd (?m ev ?s)) =>
      assert (steps (follows after_config) m) as S
        by (unfold after_config; run_steps);
      pose proof (S ev s) as F'; clear S
  end.
  merge_follows. eapply close_saved; eassumption.
Qed.

(** C4, the claim fails: a second install on a machine that already has
    a deployment writes a server configuration with another credential. *)
Lemma install_rerun_regenerates :
  is_Some (persisted_users Sample.installed) /\
  is_Some (persisted_users (snd Sample.second_run)) /\
  persisted_users (snd Sample.second_run) <> persisted_users Sample.installed.
Proof.
  vm_compute. split; [eauto|]. split; [eauto|]. discriminate.
Qed.

(** C4, amended. The credential of an install run has a UUID-shaped
    username and a password of sixteen hexadecimal digits; a run draws
    no credential (it stopped before) or exactly one, always from fresh
    entropy, and a server configuration written by the run holds the
    credential drawn by that run, whatever was on the machine before. *)
Theorem install_credential (params : Template.params) (ev : env) (st : state) :
  let user := next_user ev st in
  let st' := snd (Scaffold.install params ev st) in
  UUID.shaped (User.username user) = true /\
  User.password_ok (User.password user) = true /\
  fst (User.gen ev st) = Ret user /\
  exists evs,
    trace st' = trace st ++ evs /\
    (count is_urandom evs = 0%nat /\ entropy_pos st' = entropy_pos st \/
     count is_urandom evs = 2%nat /\ entropy_pos st' = (entropy_pos st + 48)%nat) /\
    (existsb (is_write Project.server_config) evs = true ->
     exists domain port,
       files st' !! Project.server_config =
         Some (Json (Py.VDict (ServerConfig.to_dict
           (ServerConfig.from_automation (ServerConfig.One user)
              (Certificate.fullchain domain) (Certificate.privkey domain) port))))).
Proof.
  intros user st'. split; [apply uuid4_shaped|]. split; [apply token_hex_16|].
  split; [by rewrite gen_run|].
  apply install_credential_of_run.
Qed.

(** ** The files of the clients *)

Import Extra.

(** *** Texts *)

Lemma append_cons (x : ascii) (a b : string) :
  String x a +:+ b = String x (a +:+ b).
Proof. reflexivity. Qed.

Lemma append_nil_l (b : string) : EmptyString +:+ b = b.
Proof. reflexivity. Qed.

Lemma append_nil_r (s : string) : s +:+ EmptyString = s.
Proof.
  induction s as [|a s IH]; [done|]. by rewrite append_cons, IH.
Qed.

Lemma append_assoc (a b c : string) : (a +:+ b) +:+ c = a +:+ (b +:+ c).
Proof.
  induction a as [|x a IH]; [done|]. by rewrite !append_cons, IH.
Qed.


Lemma has_append c (a b : string) : has c (a +:+ b) = has c a || has c b.
Proof.
  induction a as [|x a IH]; [done|]. rewrite append_cons. simpl.
  by rewrite IH, orb_assoc.
Qed.

Lemma rev_app_append (a b t : string) :
  String.rev_app a b +:+ t = String.rev_app a (b +:+ t).
Proof.
  revert b. induction a as [|x a IH]; intros b; simpl; [done|].
  by rewrite IH, append_cons.
Qed.

Lemma rev_cons_append (x : ascii) (cur t : string) :
  String.rev (String x cur) +:+ t = String.rev cur +:+ String x t.
Proof. unfold String.rev. simpl. by rewrite !rev_app_append. Qed.

Lemma has_rev_app c (a b : string) :
  has c (String.rev_app a b) = has c a || has c b.
Proof.
  revert b. induction a as [|x a IH]; intros b; simpl; [done|].
  rewrite IH. simpl. destruct (Ascii.eqb x c), (has c a), (has c b); done.
Qed.

Lemma has_rev c (a : string) : has c (String.rev a) = has c a.
Proof. unfold String.rev. by rewrite has_rev_app, orb_false_r. Qed.

(** [split] on a text without the separator, and on a text up to its
    first separator. *)
Lemma split_go_none c cur s :
  has c s = false -> Py.split_go c cur s = [String.rev cur +:+ s].
Proof.
  revert cur. induction s as [|a s IH]; intros cur; simpl.
  - by rewrite append_nil_r.
  - intros [Ha Hs]%orb_false_elim. rewrite Ha, IH by done.
    by rewrite rev_cons_append.
Qed.

Lemma split_go_app c cur a b :
  has c a = false ->
  Py.split_go c cur (a +:+ String c b) =
    (String.rev cur +:+ a) :: Py.split_go c EmptyString b.
Proof.
  revert cur. induction a as [|x a IH]; intros cur.
  - intros _. rewrite append_nil_l, append_nil_r. simpl.
    by rewrite Ascii.eqb_refl.
  - simpl. intros [Hx Ha]%orb_false_elim. rewrite ?append_cons. simpl.
    rewrite Hx, IH by done. by rewrite rev_cons_append.
Qed.

Lemma split_app c a b :
  has c a = false -> Py.split c (a +:+ String c b) = a :: Py.split c b.
Proof. intros H. unfold Py.split. by rewrite split_go_app. Qed.

Lemma split_none c s : has c s = false -> Py.split c s = [s].
Proof. intros H. unfold Py.split. by rewrite split_go_none. Qed.

(** The pieces of a split do not hold the separator. *)
Lemma split_go_pieces c cur s :
  has c cur = false -> Forall (fun p => has c p = false) (Py.split_go c cur s).
Proof.
  revert cur. induction s as [|a s IH]; intros cur Hc; simpl.
  - constructor; [by rewrite has_rev | constructor].
  - destruct (Ascii.eqb a c) eqn:E.
    + constructor; [by rewrite has_rev | by apply IH].
    + apply IH. simpl. by rewrite E.
Qed.

Lemma split_pieces c s : Forall (fun p => has c p = false) (Py.split c s).
Proof. by apply split_go_pieces. Qed.

(** [sep.join] then [split] gives the lines back. *)
Lemma split_join c (l : list string) :
  l <> [] -> Forall (fun p => has c p = false) l ->
  Py.split c (Py.join (Py.chr c) l) = l.
Proof.
  induction l as [|a l IH]; [done|]. intros _ Hl.
  apply Forall_cons in Hl as [Ha Hl].
  destruct l as [|b l].
  - simpl. by apply split_none.
  - change (Py.join (Py.chr c) (a :: b :: l))
      with (a +:+ String c (Py.join (Py.chr c) (b :: l))).
    rewrite split_app by done. by rewrite IH.
Qed.
















(** *** The text of the Clash.Meta file *)

Lemma filter_all {A} (P : A -> bool) (l : list A) :
  Forall (fun x => P x = true) l -> filter (fun x => P x) l = l.
Proof.
  induction 1 as [|x l Hx Hl IH]; [done|].
  rewrite filter_cons_True by (by rewrite Hx). by rewrite IH.
Qed.























(** *** Running a part of the workflow *)

Lemma modify_run f ev st : modify f ev st = (Ret tt, f st).
Proof. reflexivity. Qed.

Lemma read_text_run p ev st :
  Path.read_text p ev st =
    (Ret (match files st !! p with Some (Text s) => s | _ => EmptyString end), st).
Proof. reflexivity. Qed.



(** *** The attributes of the project during a run *)

















(** *** The port of a run *)





(** *** The files of an install *)

















(** * Further properties *)

(** The decimal rendering of an [int] has no colon. *)
Lemma has_colon_pretty_N_go (x : N) (s : string) :
  has ":" (pretty_N_go x s) = has ":" s.
Proof.
  revert s. induction (N.lt_wf_0 x) as [x _ IH]; intros s.
  assert (x = 0 ∨ 0 < x)%N as [->|?] by lia.
  - by rewrite pretty_N_go_0.
  - rewrite pretty_N_go_step by done. rewrite IH by (by apply N.div_lt).
    unfold pretty_N_char. by repeat case_match.
Qed.

Lemma has_colon_str_int (n : Z) : has ":" (Py.str_int n) = false.
Proof.
  unfold Py.str_int, pretty, pretty_Z.
  destruct n as [|p|p]; [done| |].
  - unfold pretty, pretty_positive, pretty, pretty_N.
    case_decide; [done|]. by rewrite has_colon_pretty_N_go.
  - rewrite has_append. simpl.
    unfold pretty, pretty_positive, pretty, pretty_N.
    case_decide; [done|]. by rewrite has_colon_pretty_N_go.
Qed.

(** ** The users of the server configuration *)

Lemma assoc_set_item (d : list (string * string)) k v k' :
  assoc (Py.set_item d k v) k' =
    if String.eqb k k' then Some v else assoc d k'.
Proof.
  induction d as [|[k0 v0] d IH]; simpl; [done|].
  destruct (String.eqb_spec k0 k) as [->|Hk]; simpl.
  - by destruct (String.eqb k k').
  - rewrite IH. destruct (String.eqb_spec k0 k') as [->|]; [|done].
    by rewrite (proj2 (String.eqb_neq k k')) by congruence.
Qed.

Lemma keys_set_item (d : list (string * string)) k v :
  map fst (Py.set_item d k v) =
    if bool_decide (k ∈ map fst d) then map fst d else map fst d ++ [k].
Proof.
  induction d as [|[k0 v0] d IH]; simpl; [done|].
  destruct (String.eqb_spec k0 k) as [->|Hk]; simpl.
  - rewrite bool_decide_eq_true_2; [done | left].
  - rewrite IH. destruct (decide (k ∈ map fst d)) as [Hin|Hin].
    + rewrite !bool_decide_eq_true_2; [done | by right | done].
    + rewrite !bool_decide_eq_false_2; [done | | done].
      intros [?|?]%elem_of_cons; congruence.
Qed.

Lemma nodup_set_item (d : list (string * string)) k v :
  NoDup (map fst d) -> NoDup (map fst (Py.set_item d k v)).
Proof.
  intros Hd. rewrite keys_set_item. case_bool_decide as Hin; [done|].
  apply NoDup_app. split_and!; [done | | apply NoDup_singleton].
  intros x Hx ->%list_elem_of_singleton. done.
Qed.

Lemma assoc_app (l1 l2 : list (string * string)) k :
  assoc (l1 ++ l2) k =
    match assoc l1 k with Some v => Some v | None => assoc l2 k end.
Proof.
  induction l1 as [|[k0 v0] l1 IH]; simpl; [done|].
  by destruct (String.eqb k0 k).
Qed.

Lemma users_dict_fold (l : list User.t) (d : list (string * string)) k :
  NoDup (map fst d) ->
  let d' := fold_left
    (fun d u => Py.set_item d (User.username u) (User.password u)) l d in
  NoDup (map fst d') /\
  assoc d' k =
    match assoc (entries l) k with Some v => Some v | None => assoc d k end.
Proof.
  revert d. induction l as [|u l IH]; intros d Hd; simpl; [done|].
  destruct (IH _ (nodup_set_item d (User.username u) (User.password u) Hd))
    as [Hn Ha].
  split; [done|]. rewrite Ha. unfold entries. simpl.
  rewrite assoc_app, assoc_set_item. simpl.
  destruct (assoc _ k); [done|]. by destruct (String.eqb _ k).
Qed.

(** X1. [from_automation] with a list of users: the [users] object has
    each name once, and a name stands for the password of the last
    user of the list that carries it. *)
Theorem from_automation_last_user_wins (l : list User.t)
    (fullchain privkey : string) (port : Z) (name : string) :
  let sc := ServerConfig.from_automation (ServerConfig.Many l)
              fullchain privkey port in
  NoDup (map fst (ServerConfig.users sc)) /\
  assoc (ServerConfig.users sc) name = assoc (entries l) name.
Proof.
  simpl. unfold ServerConfig.users_dict.
  destruct (users_dict_fold l [] name (NoDup_nil_2)) as [Hn Ha].
  split; [done|]. rewrite Ha. by destruct (assoc (entries l) name).
Qed.

(** ** The NekoRay configuration *)

Lemma drop_none_sound (d : Py.dict) :
  Forall (fun kv => Py.is_none (snd kv) = false) (Py.drop_none d).
Proof.
  apply Forall_forall. intros kv [H _]%list_elem_of_filter.
  by destruct (Py.is_none (snd kv)).
Qed.

(** X2. What [NekoRayConfig.from_server] exports holds no [None]: the
    relay object of a view that comes from [copy_from_server] has the
    given address and port as its [server], an [ip] entry exactly when
    an address is given, and never a [certificates] entry; the local
    object is the socks placeholder with the packet size. *)
Theorem nekoray_from_server_exports (domain : string) (user : User.t)
    (sc : ServerConfig.t) (port0 : Z) (addr : string) (port : Z)
    (ip : option string) :
  let relay := ClientRelay.copy_from_server domain user sc port0 in
  let cfg := fst (NekoRayConfig.from_server relay addr port ip) in
  Forall (fun kv => Py.is_none (snd kv) = false) (NekoRayConfig.relay cfg) /\
  Forall (fun kv => Py.is_none (snd kv) = false) (NekoRayConfig.local cfg) /\
  Py.get (NekoRayConfig.relay cfg) "server" =
    Some (Py.VStr (addr +:+ ":" +:+ Py.str_int port)) /\
  Py.get (NekoRayConfig.relay cfg) "ip" = Py.VStr <$> ip /\
  Py.get (NekoRayConfig.relay cfg) "certificates" = None /\
  NekoRayConfig.local cfg =
    [("server", Py.VStr "127.0.0.1:%socks_port%");
     ("max_packet_size", Py.VInt 1500)].
Proof.
  intros relay cfg. unfold cfg, NekoRayConfig.from_server.
  cbn [fst NekoRayConfig.relay NekoRayConfig.local].
  split_and!; try apply drop_none_sound.
  - by destruct ip.
  - unfold relay, ClientRelay.copy_from_server.
    destruct ip; by destruct (ServerConfig.alpn sc) as [[|]|].
  - unfold relay, ClientRelay.copy_from_server.
    destruct ip; by destruct (ServerConfig.alpn sc) as [[|]|].
  - done.
Qed.

Lemma nekoray_relay_server (relay : ClientRelay.t) (addr : string) (port : Z)
    (ip : option string) :
  Py.get (NekoRayConfig.relay (fst (NekoRayConfig.from_server relay addr port ip)))
    "server" = Some (Py.VStr (addr +:+ ":" +:+ Py.str_int port)).
Proof. by destruct ip. Qed.

Lemma split_go_length_1 c cur s : (1 <= length (Py.split_go c cur s))%nat.
Proof.
  revert cur. induction s as [|a s IH]; intros cur; simpl; [lia|].
  destruct (Ascii.eqb a c); simpl; [lia | apply IH].
Qed.

Lemma split_go_length_2 c cur a b :
  (2 <= length (Py.split_go c cur (a +:+ String c b)))%nat.
Proof.
  revert cur. induction a as [|x a IH]; intros cur.
  - rewrite append_nil_l. simpl. rewrite Ascii.eqb_refl. simpl.
    pose proof (split_go_length_1 c EmptyString b). lia.
  - rewrite append_cons. simpl. destruct (Ascii.eqb x c); simpl.
    + pose proof (split_go_length_1 c EmptyString (a +:+ String c b)). lia.
    + apply IH.
Qed.

Lemma split_go_length_3 c cur a b :
  has c a = true ->
  (3 <= length (Py.split_go c cur (a +:+ String c b)))%nat.
Proof.
  revert cur. induction a as [|x a IH]; intros cur; [done|].
  rewrite append_cons. simpl. destruct (Ascii.eqb x c); simpl.
  - intros _. pose proof (split_go_length_2 c EmptyString a b). lia.
  - apply IH.
Qed.

(** X3. [serv_peer] on what [from_server] exports: the address and the
    decimal port come back when the address has no colon; with a colon
    in the address the unpacking into two names raises [ValueError]. *)
Theorem serv_peer_of_from_server (relay : ClientRelay.t) (addr : string)
    (port : Z) (ip : option string) (ev : env) (st : state) :
  NekoRayConfig.serv_peer
    (fst (NekoRayConfig.from_server relay addr port ip)) ev st =
  (if has ":" addr then Raise ValueError else Ret (addr, Py.str_int port), st).
Proof.
  unfold NekoRayConfig.serv_peer. rewrite nekoray_relay_server.
  destruct (has ":" addr) eqn:E.
  - pose proof (split_go_length_3 ":" EmptyString addr (Py.str_int port) E) as H.
    change (addr +:+ String ":" (Py.str_int port))
      with (addr +:+ ":" +:+ Py.str_int port) in H.
    unfold Py.split.
    destruct (Py.split_go _ _ _) as [|x [|y [|z r]]]; simpl in H; try lia.
    reflexivity.
  - change (addr +:+ ":" +:+ Py.str_int port)
      with (addr +:+ String ":" (Py.str_int port)).
    rewrite split_app by done.
    rewrite split_none by apply has_colon_str_int. reflexivity.
Qed.


(** ** Blank lines *)

Lemma filter_sound {A} (P : A -> bool) (l : list A) :
  Forall (fun x => P x = true) (filter (fun x => P x) l).
Proof.
  apply Forall_forall. intros x [H _]%list_elem_of_filter.
  by destruct (P x).
Qed.

Lemma filter_keeps {A} (P : A -> bool) (Q : A -> Prop) (l : list A) :
  Forall Q l -> Forall Q (filter (fun x => P x) l).
Proof.
  rewrite !Forall_forall. intros H x [_ Hx]%list_elem_of_filter. by apply H.
Qed.

(** X4. [remove_empty_lines] is idempotent, and what it returns is
    empty or has no blank line. *)
Theorem remove_empty_lines_idempotent (s : string) :
  let r := ClashMetaConfig.remove_empty_lines s in
  ClashMetaConfig.remove_empty_lines r = r /\
  (r = EmptyString \/
   Forall (fun line => nonblank line = true) (Py.split Py.LF r)).
Proof.
  intros r. unfold r, ClashMetaConfig.remove_empty_lines.
  set (f := filter (fun x => nonblank x) (Py.split Py.LF s)).
  change (Py.join Py.nl (filter (fun x => nonblank x)
            (Py.split Py.LF (Py.join Py.nl f))) = Py.join Py.nl f /\
          (Py.join Py.nl f = EmptyString \/
           Forall (fun line => nonblank line = true)
             (Py.split Py.LF (Py.join Py.nl f)))).
  assert (Hf : Forall (fun p => has Py.LF p = false) f).
  { apply filter_keeps, split_pieces. }
  assert (Hn : Forall (fun x => nonblank x = true) f) by apply filter_sound.
  destruct (decide (f = [])) as [->|Hne]; [by split; [|left]|].
  change Py.nl with (Py.chr Py.LF).
  rewrite split_join by done.
  rewrite filter_all by done. split; [done | by right].
Qed.

(** ** The password *)

Lemma unhex_of_byte (b : byte) : unhex (Hex.hi b) (Hex.lo b) = Some b.
Proof. destruct b; reflexivity. Qed.

Lemma unhexlify_hexlify (bs : list byte) :
  unhexlify (Hex.hexlify bs) = Some bs.
Proof.
  induction bs as [|b bs IH]; [done|].
  change (Hex.hexlify (b :: bs))
    with (Hex.hi b :: Hex.lo b :: Hex.hexlify bs).
  cbn [unhexlify]. by rewrite unhex_of_byte, IH.
Qed.

Lemma substring_of_list (n : nat) (l : list ascii) :
  String.substring 0 n (string_of_list_ascii l) =
    string_of_list_ascii (firstn n l).
Proof.
  revert n. induction l as [|a l IH]; intros [|n]; simpl; try done.
  by rewrite IH.
Qed.

Lemma firstn_hexlify (n : nat) (bs : list byte) :
  firstn (2 * n) (Hex.hexlify bs) = Hex.hexlify (firstn n bs).
Proof.
  revert n. induction bs as [|b bs IH]; intros [|n]; try done.
  replace (2 * S n)%nat with (S (S (2 * n))) by lia.
  change (Hex.hexlify (b :: bs))
    with (Hex.hi b :: Hex.lo b :: Hex.hexlify bs).
  cbn [firstn]. rewrite IH. reflexivity.
Qed.

(** X5. [User.gen] always returns, having drawn 48 bytes of the random
    source, and the password read back as hexadecimal is bytes 16 to 23
    of that draw: eight bytes decide it, and the other twenty-four bytes
    that [token_hex] draws never show. *)
Theorem gen_password_bytes (ev : env) (st : state) :
  exists u st',
    User.gen ev st = (Ret u, st') /\
    entropy_pos st' = (entropy_pos st + 48)%nat /\
    unhexlify (list_ascii_of_string (User.password u)) =
      Some (map (entropy ev) (seq (entropy_pos st + 16) 8)).
Proof.
  rewrite gen_run. eexists _, _. split; [reflexivity|].
  split; [by destruct st|].
  unfold User.of_random, User.password, Py.take.
  rewrite substring_of_list, list_ascii_of_string_of_list_ascii.
  rewrite (firstn_hexlify 8), firstn_map.
  change (firstn 8 (seq (entropy_pos st + 16) 32))
    with (seq (entropy_pos st + 16) 8).
  apply unhexlify_hexlify.
Qed.

(** ** Removal *)


Lemma validate_domain_fail dom ev st :
  (forall ip,
     resolve ev (match dom with Some (String c s) => String c s | _ => stdin ev end)
       = Some ip -> public_ip ev <> Some ip) ->
  exists e evs,
    Scaffold._validate_domain dom ev st = (Raise e, more evs st) /\
    forallb is_lookup evs = true.
Proof.
  intros N. unfold Scaffold._validate_domain.
  rewrite bind_run, ask_run; cbn beta iota.
  set (d0 := match dom with Some (String c s) => String c s | _ => stdin ev end) in *.
  assert (exists e0,
    (match dom with
     | Some (String c s) => mret (String c s)
     | _ => emit Input;; mret (stdin ev)
     end : M string) ev st = (Ret d0, more e0 st) /\ forallb is_lookup e0 = true)
    as (e0 & E & L0).
  { unfold d0. destruct dom as [[|c s]|].
    - by exists [Input].
    - exists []. by rewrite more_nil.
    - by exists [Input]. }
  rewrite bind_run, E. cbn beta iota.
  run. destruct (resolve ev d0) as [ip|] eqn:R.
  - run. specialize (N ip eq_refl).
    destruct (public_ip ev) as [my|] eqn:I.
    + destruct (String.eqb_spec my ip) as [->|Hne]; [done|].
      cbn [negb]. run. eexists _, _. split; [reflexivity|].
      rewrite !forallb_app, L0. reflexivity.
    + run. eexists _, _. split; [reflexivity|].
      rewrite !forallb_app, L0. reflexivity.
  - run. eexists _, _. split; [reflexivity|].
    rewrite !forallb_app, L0. reflexivity.
Qed.














(** X7. [Scaffold.remove] starts with the domain check: when the name
    does not resolve, or the public address cannot be read, or the two
    differ, the run ends with an exception after the lookups, and the
    machine is as before: nothing is removed. *)
Theorem remove_needs_domain (params : Template.params) (ev : env) (st : state) :
  (forall ip, resolve ev (domain_of ev params) = Some ip ->
              public_ip ev <> Some ip) ->
  exists e evs,
    Scaffold.remove params ev st = (Raise e, more evs st) /\
    forallb is_lookup evs = true.
Proof.
  intros H. unfold Scaffold.remove.
  destruct (validate_domain_fail (Template.domain params) ev st H)
    as (e & evs & E & L).
  rewrite bind_run, E. by exists e, evs.
Qed.

(** Seen from a machine with another public address. *)
Lemma remove_needs_domain_witness :
  exists e evs,
    Scaffold.remove Sample.params Sample.host_elsewhere Sample.installed
      = (Raise e, more evs Sample.installed) /\
    forallb is_lookup evs = true.
Proof.
  apply (remove_needs_domain Sample.params Sample.host_elsewhere Sample.installed).
  intros ip [= <-]. discriminate.
Defined.




(** ** Downloading the server *)

Lemma urlretrieve_run url dest ev st :
  Service.urlretrieve url dest ev st =
    let s1 := with_counters id id S (more [Urlretrieve url dest] st) in
    if fetch_ok ev (fetch_calls st)
    then (Ret true, with_fs <[dest := Blob]> id s1)
    else (Ret false, s1).
Proof.
  unfold Service.urlretrieve. run. rewrite modify_run. run.
  destruct (fetch_ok ev (fetch_calls st)); run; rewrite ?modify_run; by run.
Qed.

Lemma count_app (P : event -> bool) (a b : list event) :
  count P (a ++ b) = (count P a + count P b)%nat.
Proof. unfold count. by rewrite List.filter_app, length_app. Qed.

(** X9. [download_server] when the first [n] downloads fail and the
    next one succeeds, with [n] calls of itself still allowed: it
    returns, having fetched [n + 1] times and stopped the service once
    per failure; the file is there and was made executable once. *)
Theorem download_server_retries (n depth : nat) (self : Service.t)
    (ws : string) (ev : env) (st : state) :
  (n <= depth)%nat ->
  (forall i, (i < n)%nat -> fetch_ok ev (fetch_calls st + i) = false) ->
  fetch_ok ev (fetch_calls st + n) = true ->
  exists evs st',
    Service.download_server depth self ws ev st = (Ret tt, st') /\
    trace st' = trace st ++ evs /\
    count is_fetch evs = S n /\
    count (is_system ("systemctl stop " +:+ Service.name self)) evs = n /\
    count (is_system ("chmod +x " +:+ Path.joinpath ws "tuic")) evs = 1%nat /\
    count (fun e => match e with Sleep => true | _ => false end) evs = n /\
    fetch_calls st' = (fetch_calls st + n + 1)%nat /\
    files st' !! Path.joinpath ws "tuic" = Some Blob.
Proof.
  revert depth st. induction n as [|n IH]; intros depth st Hd Hfail Hok.
  - rewrite Nat.add_0_r in Hok.
    destruct depth; cbn [Service.download_server];
      rewrite bind_run, urlretrieve_run, Hok; cbn beta iota zeta; run;
      (eexists _, _; split; [reflexivity|]; split; [reflexivity|];
       unfold count; cbn; rewrite ?String.eqb_refl, ?lookup_insert_eq; cbn;
       repeat split; lia).
  - destruct depth as [|depth]; [lia|].
    cbn [Service.download_server].
    assert (fetch_ok ev (fetch_calls st) = false) as Hf0.
    { rewrite <- (Nat.add_0_r (fetch_calls st)). apply Hfail. lia. }
    rewrite bind_run, urlretrieve_run, Hf0. cbn beta iota zeta.
    unfold Service.stop. run.
    match goal with
    | |- context [Service.download_server depth self ws ev ?s] =>
        destruct (IH depth s) as (evs & st' & E & T & C1 & C2 & C3 & C4 & C5 & C6)
    end.
    + lia.
    + intros i Hi. cbn.
      match goal with
      | |- fetch_ok ev ?k = _ =>
          replace k with (fetch_calls st + S i)%nat by lia
      end.
      apply Hfail. lia.
    + cbn.
      match goal with
      | |- fetch_ok ev ?k = _ =>
          replace k with (fetch_calls st + S n)%nat by lia
      end.
      exact Hok.
    + rewrite E.
      set (pre := [Urlretrieve Service.URL (Path.joinpath ws "tuic");
                   Log "INFO" "busy, stopping the service";
                   Log "INFO" "stop service";
                   System ("systemctl stop " +:+ Service.name self); Sleep]).
      assert (count (is_system ("systemctl stop " +:+ Service.name self)) pre
              = 1%nat) as P2
        by (unfold count; cbn; by rewrite String.eqb_refl).
      exists (pre ++ evs), st'. split; [reflexivity|].
      split; [rewrite T; cbn; by rewrite <- app_assoc|].
      rewrite !count_app, C1, C2, C3, C4, C5, C6, P2. cbn in *.
      repeat split; lia.
Qed.

(** On the sample host the first download fails and the second one
    succeeds. *)
Lemma download_server_retries_witness :
  exists evs st',
    Service.download_server Service.recursion_limit
      {| Service.path := Project.service; Service.name := "tuic" |}
      Project.workstation Sample.host Sample.fresh = (Ret tt, st') /\
    trace st' = trace Sample.fresh ++ evs /\
    count is_fetch evs = 2%nat.
Proof.
  destruct (download_server_retries 1 Service.recursion_limit
              {| Service.path := Project.service; Service.name := "tuic" |}
              Project.workstation Sample.host Sample.fresh)
    as (evs & st' & E & T & C & _).
  - unfold Service.recursion_limit. lia.
  - intros i Hi. assert (i = 0%nat) as -> by lia. reflexivity.
  - reflexivity.
  - exists evs, st'. auto.
Defined.

(** ** A service that does not come up *)




(** ** The alias *)

Lemma startswith_app (a b : string) : Py.startswith a (a +:+ b) = true.
Proof.
  induction a as [|x a IH]; [by destruct b|].
  rewrite append_cons. simpl. by rewrite Ascii.eqb_refl.
Qed.

Lemma startswith_app_l (a b s : string) :
  Py.startswith (a +:+ b) s = true -> Py.startswith a s = true.
Proof.
  revert s. induction a as [|x a IH]; intros s; [by destruct s|].
  rewrite append_cons. destruct s as [|y s]; simpl; [done|].
  intros [-> H]%andb_prop. by rewrite (IH s H).
Qed.

Lemma contains_startswith (a s : string) :
  Py.startswith a s = true -> Py.contains a s = true.
Proof. intros H. destruct s; simpl in *; by rewrite H. Qed.

Lemma contains_app (a t b : string) : Py.contains a (t +:+ a +:+ b) = true.
Proof.
  induction t as [|c t IH].
  - rewrite append_nil_l. apply contains_startswith, startswith_app.
  - rewrite append_cons. cbn [Py.contains]. rewrite IH. apply orb_true_r.
Qed.

(** A text without [a] has no occurrence of a text that holds [a]. *)
Lemma contains_mono (a old t : string) :
  (forall s, Py.startswith old s = true -> Py.contains a s = true) ->
  Py.contains a t = false -> Py.contains old t = false.
Proof.
  intros H. induction t as [|c t IH].
  - intros Ha. destruct (Py.startswith old EmptyString) eqn:E.
    + by rewrite (H _ E) in Ha.
    + simpl. by rewrite E.
  - cbn [Py.contains]. intros [Hs Ht]%orb_false_elim.
    rewrite (IH Ht), orb_false_r.
    destruct (Py.startswith old (String c t)) eqn:E; [|done].
    apply H in E. cbn [Py.contains] in E. by rewrite Hs, Ht in E.
Qed.

Lemma contains_newline_before (a s : string) :
  Py.startswith (String Py.LF a) s = true -> Py.contains a s = true.
Proof.
  destruct s as [|c s]; simpl; [done|]. intros [_ H]%andb_prop.
  by rewrite (contains_startswith a s H), orb_true_r.
Qed.







Lemma alias_spellings (t : string) :
  Py.contains Project.alias t = false ->
  Py.contains (Py.nl +:+ Project.alias +:+ Py.nl) t = false /\
  Py.contains (Py.nl +:+ Project.alias) t = false /\
  Py.contains (Project.alias +:+ Py.nl) t = false.
Proof.
  intros H. split_and!; (eapply contains_mono; [|exact H]); intros s Hs.
  - apply contains_newline_before.
    by apply (startswith_app_l (String Py.LF Project.alias) Py.nl).
  - by apply contains_newline_before.
  - apply contains_startswith. by apply (startswith_app_l _ Py.nl).
Qed.


Lemma contains_record (a t : string) :
  Py.contains a (t +:+ Py.nl +:+ a +:+ Py.nl) = true.
Proof. rewrite <- (append_assoc t Py.nl). apply contains_app. Qed.

(** [set_alias] under a history file that is text or absent. *)
Lemma set_alias_run ev st :
  text_or_absent st Project.path_bash_aliases ->
  let t := match files st !! Project.path_bash_aliases with
           | Some (Text s) => s
           | _ => EmptyString
           end in
  Project.set_alias ev st =
    if bool_decide (is_Some (files st !! Project.path_bash_aliases)) &&
       Py.contains Project.alias t
    then (Ret tt, st)
    else (Ret tt,
          more [WriteText Project.path_bash_aliases;
                Log "INFO" ("alias=" +:+ Project._alias)]
            (with_fs <[Project.path_bash_aliases :=
                         Text (t +:+ Py.nl +:+ Project.alias +:+ Py.nl)]> id st)).
Proof.
  intros H t. unfold Project.set_alias. rewrite bind_run, exists_run.
  cbn beta iota. unfold text_or_absent in H. subst t.
  destruct (files st !! Project.path_bash_aliases) as [[t| |]|] eqn:F; try done.
  - rewrite (bool_decide_eq_true_2 (is_Some (Some (Text t)))) by done.
    cbn [orb andb]. rewrite !bind_run, read_text_run, F. cbn beta iota. run.
    destruct (Py.contains Project.alias t) eqn:C.
    + cbn [existsb]. rewrite C, !orb_true_r. by run.
    + destruct (alias_spellings t C) as (C1 & C2 & C3).
      cbn [existsb]. rewrite C, C1, C2, C3. cbn [orb].
      rewrite bind_run, read_text_run, F. cbn beta iota. by run.
  - rewrite (bool_decide_eq_false_2 (is_Some None)) by (by intros [? ?]).
    rewrite (bool_decide_eq_false_2 _ H). cbn [orb andb]. run.
    rewrite read_text_run, F. cbn beta iota. by run.
Qed.

(** X11. [set_alias] does its work once: after a call the history file
    holds the alias, and a second call changes nothing, not even the
    log. *)
Theorem set_alias_idempotent (ev : env) (st : state) :
  text_or_absent st Project.path_bash_aliases ->
  exists st1 t,
    Project.set_alias ev st = (Ret tt, st1) /\
    files st1 !! Project.path_bash_aliases = Some (Text t) /\
    Py.contains Project.alias t = true /\
    Project.set_alias ev st1 = (Ret tt, st1).
Proof.
  intros H. rewrite (set_alias_run ev st H).
  assert (forall t (s : state),
            files s !! Project.path_bash_aliases = Some (Text t) ->
            Py.contains Project.alias t = true ->
            Project.set_alias ev s = (Ret tt, s)) as again.
  { intros t s F C.
    rewrite set_alias_run by (unfold text_or_absent; by rewrite F).
    rewrite F, C. by rewrite bool_decide_eq_true_2. }
  unfold text_or_absent in H.
  destruct (files st !! Project.path_bash_aliases) as [[t| |]|] eqn:F; try done.
  - rewrite (bool_decide_eq_true_2 (is_Some (Some (Text t)))) by done.
    cbn [andb]. destruct (Py.contains Project.alias t) eqn:C.
    + exists st, t. split; [done|]. split; [done|]. split; [done|]. eauto.
    + eexists _, _. split; [reflexivity|]. cbn.
      rewrite lookup_insert_eq. split; [reflexivity|].
      split; [apply contains_record|].
      eapply again; [cbn; apply lookup_insert_eq | apply contains_record].
  - rewrite (bool_decide_eq_false_2 (is_Some None)) by (by intros [? ?]).
    cbn [andb]. eexists _, _. split; [reflexivity|]. cbn.
    rewrite lookup_insert_eq. split; [reflexivity|].
    split; [apply contains_record|].
    eapply again; [cbn; apply lookup_insert_eq | apply contains_record].
Qed.

(** On a machine on which nothing was installed. *)
Lemma set_alias_idempotent_witness :
  exists st1 t,
    Project.set_alias Sample.host Sample.fresh = (Ret tt, st1) /\
    files st1 !! Project.path_bash_aliases = Some (Text t) /\
    Py.contains Project.alias t = true /\
    Project.set_alias Sample.host st1 = (Ret tt, st1).
Proof.
  apply set_alias_idempotent. unfold text_or_absent.
  replace (files Sample.fresh !! Project.path_bash_aliases) with (@None file)
    by reflexivity.
  apply (bool_decide_unpack _). vm_compute. exact I.
Defined.


